(** * Verification of the request dispatcher of the GraphQL client

    The development embeds [v2/requester.go] (the dispatcher), [errors.go]
    (the error model), the request and client value types, and the parts of
    the Go libraries the dispatcher calls, and proves the properties of the
    specification about them.

    Go strings are byte strings: [string] here.  A Go [error] is a value
    that may be nil: [option errval] here, with [None] for nil. *)

From Stdlib Require Import Ascii String ZArith.
From stdpp Require Import gmap strings list fin_maps pretty sorting.

Open Scope string_scope.
Open Scope Z_scope.
Open Scope list_scope.

(** ** errors.go: the error model *)

(** The error values the package and its libraries build:
    [errors.New(msg)], [errors.Wrap(cause, msg)] (github.com/pkg/errors) and
    the plain text errors of [fmt.Errorf] without a wrapping verb (also the
    shape given to errors raised inside the standard library). *)
Inductive errval : Type :=
| fundamental (msg : string)
| withMessage (cause : errval) (msg : string)
| errorString (s : string).

Definition error : Type := option errval.

#[global] Instance errval_eq_dec : EqDecision errval.
Proof. solve_decision. Defined.

(** The [Error() string] method. *)
Fixpoint Error (e : errval) : string :=
  match e with
  | fundamental msg => msg
  | withMessage cause msg => msg +:+ ": " +:+ Error cause
  | errorString s => s
  end.

(** [errors.Cause]: the innermost error of a chain of wraps. *)
Fixpoint Cause (e : errval) : errval :=
  match e with
  | withMessage cause _ => Cause cause
  | _ => e
  end.

Definition errors_New (message : string) : errval := fundamental message.

(** [errors.Wrap] returns nil when [err] is nil. *)
Definition errors_Wrap (err : error) (message : string) : error :=
  match err with
  | None => None
  | Some cause => Some (withMessage cause message)
  end.

Definition ErrInvalidInput : errval := errors_New "cannot send files with PostFields option".
Definition ErrCreateVariablesField : errval := errors_New "create variables field".
Definition ErrEncodeVariablesField : errval := errors_New "encode variables".
Definition ErrCreateFile : errval := errors_New "create form file".
Definition ErrReadBody : errval := errors_New "read body".
Definition ErrDecode : errval := errors_New "decode".
Definition ErrCopy : errval := errors_New "copy".
Definition ErrRequest : errval := errors_New "graphql: server returned a non-200 status code".

Definition NewError (err : error) (wrappedErr : errval) : error :=
  errors_Wrap err (Error wrappedErr).

(** [fmt.Errorf("%v: %v", e, n)] for an error [e] and an int [n]: the text
    of [e], a colon and a space, [n] in decimal. *)
Definition fmt_Errorf_v_v (e : errval) (n : Z) : errval :=
  errorString (Error e +:+ ": " +:+ pretty n).

(** [GraphError[T]] and its methods. *)
Record GraphError (T : Type) : Type := mkGraphError {
  Message : string;
  Extensions : T
}.
Arguments mkGraphError {T} _ _.
Arguments Message {T} _.
Arguments Extensions {T} _.

Definition GraphError_Error {T} (e : GraphError T) : string := "graphql: " +:+ Message e.
Definition GetExtensions {T} (e : GraphError T) : T := Extensions e.

(** The eight named failure categories of the package. *)
Definition named_categories : list errval :=
  [ErrInvalidInput; ErrCreateVariablesField; ErrEncodeVariablesField;
   ErrCreateFile; ErrReadBody; ErrDecode; ErrCopy; ErrRequest].

(** ** encoding/json, as the dispatcher uses it to encode *)

(** The dynamic values of [map[string]any] that are modelled: nil, booleans,
    integers, strings, and a channel, which stands for the values
    encoding/json refuses to encode. *)
Inductive value : Type :=
| VNil
| VBool (b : bool)
| VInt (n : Z)
| VString (s : string)
| VChan.

#[global] Instance value_eq_dec : EqDecision value.
Proof. solve_decision. Defined.

(** The double quote, and a text written with an apostrophe wherever the
    text meant has a double quote. *)
Definition quote : ascii := "034".

Fixpoint dq (s : string) : string :=
  match s with
  | "" => ""
  | String c s' => String (if (c =? "'")%char then quote else c) (dq s')
  end.

Definition newline : string := String "010" "".

Definition hex_digit (n : N) : ascii :=
  match n with
  | 0 => "0" | 1 => "1" | 2 => "2" | 3 => "3" | 4 => "4" | 5 => "5" | 6 => "6"
  | 7 => "7" | 8 => "8" | 9 => "9" | 10 => "a" | 11 => "b" | 12 => "c"
  | 13 => "d" | 14 => "e" | _ => "f"
  end%N%char.

(** The escape of one byte below 0x80 with HTML escaping on, the setting of
    [json.NewEncoder], with the short escapes of Go 1.22 and later for
    backspace and form feed. *)
Definition escape_byte (c : ascii) : string :=
  let n := N_of_ascii c in
  if (c =? quote)%char then dq "\'"
  else if (c =? "\")%char then "\\"
  else if (n =? 8)%N then "\b"
  else if (n =? 12)%N then "\f"
  else if (n =? 10)%N then "\n"
  else if (n =? 13)%N then "\r"
  else if (n =? 9)%N then "\t"
  else if (n <? 32)%N || (c =? "<")%char || (c =? ">")%char || (c =? "&")%char
  then "\u00" +:+ String (hex_digit (N.shiftr n 4)) (String (hex_digit (N.land n 15)) "")
  else String c "".

(** [unicode/utf8]: the rune at the head of a string and the number of
    bytes it takes; a head that is not UTF-8 gives [RuneError] and one
    byte. *)
Definition RuneError : N := 65533.

Definition in_range (lo hi b : N) : bool := (lo <=? b)%N && (b <=? hi)%N.

(** For a first byte from 0x80 up: the length of the sequence it starts and
    the range its second byte must be in; none for a byte that starts no
    sequence. *)
Definition first (s0 : N) : option (nat * (N * N)) :=
  if in_range 194 223 s0 then Some (2%nat, (128, 191)%N)
  else if (s0 =? 224)%N then Some (3%nat, (160, 191)%N)
  else if in_range 225 236 s0 then Some (3%nat, (128, 191)%N)
  else if (s0 =? 237)%N then Some (3%nat, (128, 159)%N)
  else if in_range 238 239 s0 then Some (3%nat, (128, 191)%N)
  else if (s0 =? 240)%N then Some (4%nat, (144, 191)%N)
  else if in_range 241 243 s0 then Some (4%nat, (128, 191)%N)
  else if (s0 =? 244)%N then Some (4%nat, (128, 143)%N)
  else None.

Definition continuation (b : N) : N := N.land b 63.

Definition DecodeRuneInString (s : string) : N * nat :=
  match s with
  | "" => (RuneError, 0%nat)
  | String c0 t0 =>
    let s0 := N_of_ascii c0 in
    if (s0 <? 128)%N then (s0, 1%nat)
    else
      match first s0 with
      | None => (RuneError, 1%nat)
      | Some (sz, (lo, hi)) =>
        if (String.length s <? sz)%nat then (RuneError, 1%nat)
        else
          match t0 with
          | "" => (RuneError, 1%nat)
          | String c1 t1 =>
            let s1 := N_of_ascii c1 in
            if negb (in_range lo hi s1) then (RuneError, 1%nat)
            else if (sz <=? 2)%nat
            then (N.lor (N.shiftl (N.land s0 31) 6) (continuation s1), 2%nat)
            else
              match t1 with
              | "" => (RuneError, 1%nat)
              | String c2 t2 =>
                let s2 := N_of_ascii c2 in
                if negb (in_range 128 191 s2) then (RuneError, 1%nat)
                else if (sz <=? 3)%nat
                then (N.lor (N.shiftl (N.land s0 15) 12)
                        (N.lor (N.shiftl (continuation s1) 6) (continuation s2)),
                      3%nat)
                else
                  match t2 with
                  | "" => (RuneError, 1%nat)
                  | String c3 _ =>
                    let s3 := N_of_ascii c3 in
                    if negb (in_range 128 191 s3) then (RuneError, 1%nat)
                    else (N.lor (N.shiftl (N.land s0 7) 18)
                            (N.lor (N.shiftl (continuation s1) 12)
                               (N.lor (N.shiftl (continuation s2) 6) (continuation s3))),
                          4%nat)
                  end
              end
          end
      end
  end.

(** The loop of the string encoder.  A byte below 0x80 is escaped by
    [escape_byte]; a byte that is not the head of a UTF-8 sequence is
    written as the escape of U+FFFD; U+2028 and U+2029 are written as
    their escapes; any other sequence is copied.  [skip] counts the bytes
    still to pass of the sequence at hand, which are copied when [keep] is
    set. *)
Fixpoint escape_from (skip : nat) (keep : bool) (s : string) : string :=
  match s with
  | "" => ""
  | String c s' =>
    match skip with
    | S k => (if keep then String c "" else "") +:+ escape_from k keep s'
    | O =>
      if (N_of_ascii c <? 128)%N then escape_byte c +:+ escape_from 0 true s'
      else
        let (r, size) := DecodeRuneInString s in
        if (r =? RuneError)%N && (size =? 1)%nat
        then "\u" +:+ "fffd" +:+ escape_from 0 true s'
        else if (r =? 8232)%N || (r =? 8233)%N
        then "\u202" +:+ String (hex_digit (N.land r 15)) ""
             +:+ escape_from (size - 1) false s'
        else String c "" +:+ escape_from (size - 1) true s'
    end
  end.

Definition escape_bytes (s : string) : string := escape_from 0 true s.

Definition encodeString (s : string) : string := dq "'" +:+ escape_bytes s +:+ dq "'".

Definition encode_value (v : value) : string + errval :=
  match v with
  | VNil => inl "null"
  | VBool b => inl (if b then "true" else "false")
  | VInt n => inl (pretty n)
  | VString s => inl (encodeString s)
  | VChan => inr (errorString "json: unsupported type: chan int")
  end.

(** A Go map that may be nil: [None] is the nil map, [Some ∅] an empty one
    made by [make]. *)
Definition QueryVariables : Type := option (gmap string value).

Definition len_vars (vars : QueryVariables) : nat :=
  match vars with
  | None => 0%nat
  | Some m => size m
  end.

(** The entries of a map in the order encoding/json writes them: by key. *)
Definition by_key (a b : string * value) : Prop := String.le a.1 b.1.

Definition sorted_entries (m : gmap string value) : list (string * value) :=
  merge_sort by_key (map_to_list m).

(** The entries of an object, comma separated; the first value that cannot be
    encoded aborts the whole encoding. *)
Fixpoint encode_entries (first : bool) (kvs : list (string * value)) : string + errval :=
  match kvs with
  | [] => inl ""
  | (k, v) :: rest =>
    match encode_value v with
    | inr err => inr err
    | inl ev =>
      match encode_entries false rest with
      | inr err => inr err
      | inl er => inl ((if first then "" else ",") +:+ encodeString k +:+ ":" +:+ ev +:+ er)
      end
    end
  end.

Definition encode_vars (vars : QueryVariables) : string + errval :=
  match vars with
  | None => inl "null"
  | Some m =>
    match encode_entries true (sorted_entries m) with
    | inr err => inr err
    | inl body => inl ("{" +:+ body +:+ "}")
    end
  end.

(** ** net/http and net/textproto, as the dispatcher uses them *)

Abbreviation http_Header := (gmap string (list string)).

Definition is_lower (c : ascii) : bool :=
  let n := N_of_ascii c in (97 <=? n)%N && (n <=? 122)%N.
Definition is_upper (c : ascii) : bool :=
  let n := N_of_ascii c in (65 <=? n)%N && (n <=? 90)%N.
Definition is_digit (c : ascii) : bool :=
  let n := N_of_ascii c in (48 <=? n)%N && (n <=? 57)%N.

(** The bytes of an HTTP token. *)
Definition validHeaderFieldByte (c : ascii) : bool :=
  is_lower c || is_upper c || is_digit c
  || bool_decide (c ∈ list_ascii_of_string "!#$%&'*+-.^_`|~").

Fixpoint all_bytes (p : ascii → bool) (s : string) : bool :=
  match s with
  | "" => true
  | String c s' => p c && all_bytes p s'
  end.

(** Upper case for the first letter and for a letter after a dash, lower
    case for the others. *)
Definition canonical_byte (upper : bool) (c : ascii) : ascii :=
  if upper && is_lower c then ascii_of_N (N_of_ascii c - 32)
  else if negb upper && is_upper c then ascii_of_N (N_of_ascii c + 32)
  else c.

Fixpoint canonical_go (upper : bool) (a : string) : string :=
  match a with
  | "" => ""
  | String c a' =>
    let c' := canonical_byte upper c in
    String c' (canonical_go (c' =? "-")%char a')
  end.

(** [textproto.CanonicalMIMEHeaderKey]: a key with a byte that is not a
    token byte is returned unchanged. *)
Definition CanonicalMIMEHeaderKey (s : string) : string :=
  if all_bytes validHeaderFieldByte s then canonical_go true s else s.

Definition Header_Values (h : http_Header) (key : string) : list string :=
  default [] (h !! CanonicalMIMEHeaderKey key).

Definition Header_Get (h : http_Header) (key : string) : string :=
  match Header_Values h key with
  | [] => ""
  | v :: _ => v
  end.

Definition Header_Set (h : http_Header) (key value : string) : http_Header :=
  <[CanonicalMIMEHeaderKey key := [value]]> h.

Definition Header_Add (h : http_Header) (key value : string) : http_Header :=
  <[CanonicalMIMEHeaderKey key := (Header_Values h key ++ [value])%list]> h.

(** A [context.Context], reduced to what a transport can ask of it: [Err()],
    nil until the context is cancelled or past its deadline.  The dispatcher
    only passes it on. *)
Record Context : Type := mkContext { ctx_Err : error }.

(** An [io.Reader] read once, front to back: the bytes it yields and the
    error that ends the stream, nil for a plain end of file. *)
Record Reader : Type := mkReader {
  content : string;
  failure : error
}.

Definition io_ReadAll (r : Reader) : string * error := (content r, failure r).

(** The fields of [http.Request] the dispatcher sets; [Body] is the content
    of the buffer handed over as the body. *)
Record HttpRequest : Type := mkHttpRequest {
  hCtx : Context;
  hMethod : string;
  hURL : string;
  hHeader : http_Header;
  hBody : string;
  hClose : bool
}.

Record HttpResponse : Type := mkHttpResponse {
  StatusCode : Z;
  rBody : Reader
}.

Definition MethodPost : string := "POST".
Definition StatusOK : Z := 200.

Definition WithContext (r : HttpRequest) (ctx : Context) : HttpRequest :=
  mkHttpRequest ctx (hMethod r) (hURL r) (hHeader r) (hBody r) (hClose r).

(** What a call leaves in the world: the requests handed to the transport
    and the response bodies closed, in order. *)
Inductive event : Type :=
| EvDo (r : HttpRequest)
| EvClose (res : HttpResponse).

Definition Net (A : Type) : Type := list event → A * list event.

#[global] Instance Net_ret : MRet Net := λ A a log, (a, log).
#[global] Instance Net_bind : MBind Net :=
  λ A B k m log, let '(a, log') := m log in k a log'.
Definition tell (e : event) : Net unit := λ log, (tt, (log ++ [e])%list).

(** The interface [HTTPRequestDoer]: [Do] answers a request with a response
    or an error, and may depend on what happened before. *)
Definition HTTPRequestDoer : Type := HttpRequest → list event → HttpResponse + errval.

Definition Do (d : HTTPRequestDoer) (r : HttpRequest) : Net (HttpResponse + errval) :=
  λ log, (d r log, (log ++ [EvDo r])%list).

(** [defer httpRes.Body.Close()]: the body is closed when the function
    returns, whatever it returns. *)
Definition defer_Close {A} (res : HttpResponse) (m : Net A) : Net A :=
  a ← m; _ ← tell (EvClose res); mret a.

(** The number of requests handed to the transport. *)
Definition is_EvDo (e : event) : bool :=
  match e with
  | EvDo _ => true
  | EvClose _ => false
  end.

Definition calls (log : list event) : nat := length (filter (λ e, is_EvDo e = true) log).

(** ** The client and the request *)

Record Client : Type := mkClient {
  httpClient : HTTPRequestDoer;
  endpoint : string;
  useMultipartForm : bool;
  closeReq : bool
}.

(** Modelled from the spec: the type [Query], which no file under src/
    declares; the specification has it as an opaque string holding a GraphQL
    document, and [String()] gives that text. *)
Definition Query : Type := string.
Definition Query_String (q : Query) : string := q.

Record File : Type := mkFile {
  Field : string;
  Name : string;
  R : Reader
}.

Record Request : Type := mkRequest {
  q : Query;
  vars : QueryVariables;
  files : list File;
  Header : http_Header
}.

Definition NewRequest (q : Query) : Request := mkRequest q None [] ∅.

Definition Var (req : Request) (key : string) (value : value) : Request :=
  let vars' :=
    match vars req with
    | None => ∅
    | Some m => m
    end in
  mkRequest (q req) (Some (<[key := value]> vars')) (files req) (Header req).

Definition Request_Vars (req : Request) : QueryVariables := vars req.
Definition Request_Files (req : Request) : list File := files req.
Definition Request_Query (req : Request) : Query := q req.

Definition Request_File (req : Request) (fieldname filename : string) (r : Reader) : Request :=
  mkRequest (q req) (vars req) (files req ++ [mkFile fieldname filename r])%list (Header req).

(** The ways a caller changes a request after [NewRequest]. *)
Inductive builder_op : Type :=
| OpVar (key : string) (v : value)
| OpFile (fieldname filename : string) (r : Reader)
| OpHeaderSet (key v : string)
| OpHeaderAdd (key v : string).

Definition is_OpVar (o : builder_op) : bool :=
  match o with
  | OpVar _ _ => true
  | _ => false
  end.

Definition apply_op (req : Request) (o : builder_op) : Request :=
  match o with
  | OpVar key v => Var req key v
  | OpFile fieldname filename r => Request_File req fieldname filename r
  | OpHeaderSet key v => mkRequest (q req) (vars req) (files req) (Header_Set (Header req) key v)
  | OpHeaderAdd key v => mkRequest (q req) (vars req) (files req) (Header_Add (Header req) key v)
  end.

Definition build (q : Query) (ops : list builder_op) : Request :=
  foldl apply_op (NewRequest q) ops.

(** ** The libraries behind the dispatcher *)

(** [Response[T, E]].  A nil slice and an empty one are both [[]]. *)
Record Response (T E : Type) : Type := mkResponse {
  Data : T;
  Errors : list (GraphError E)
}.
Arguments mkResponse {T E} _ _.
Arguments Data {T E} _.
Arguments Errors {T E} _.

(** What the type parameters [T] and [E] fix: the zero value of [T], and
    how [json.Unmarshal(body, &response)] fills a response: it returns the
    response as it leaves it, also when it fails, and its error. *)
Class Decoder (T E : Type) : Type := {
  zero_Data : T;
  json_Unmarshal : string → Response T E → Response T E * error
}.

(** [mime/multipart]: a [Writer] over a buffer.  Each operation gives the
    writer after it and its error.  [part_Write] is [Write] on the
    [io.Writer] of the part created last, [Bytes] what the buffer holds.
    [NewWriter] is the writer of the call at hand: [multipart.NewWriter]
    draws its boundary at random, so the writers of two calls differ. *)
Class Multipart : Type := {
  Writer : Type;
  NewWriter : Writer;
  WriteField : Writer → string → string → Writer * error;
  CreateFormField : Writer → string → Writer * error;
  CreateFormFile : Writer → string → string → Writer * error;
  part_Write : Writer → string → Writer * error;
  Writer_Close : Writer → Writer * error;
  FormDataContentType : Writer → string;
  Bytes : Writer → string
}.

(** The Go runtime and [net/url]: the order in which [range] visits a
    header map in the call at hand, which is any order over its entries and
    need not be the order of another call, and the error of [url.Parse] on
    an endpoint, nil when it parses. *)
Class Runtime : Type := {
  range_Header : http_Header → list (string * list string);
  range_Header_perm : ∀ h, range_Header h ≡ₚ map_to_list h;
  url_Parse : string → error
}.

(** [http.NewRequestWithContext] with a buffer as the body: it fails when
    the URL does not parse; the new request has an empty header. *)
Definition NewRequestWithContext `{!Runtime}
    (ctx : Context) (method url body : string) : HttpRequest + errval :=
  match url_Parse url with
  | Some err => inr err
  | None => inl (mkHttpRequest ctx method url ∅ body false)
  end.

(** ** v2/requester.go *)

Record Requester (T E : Type) : Type := mkRequester { client : Client }.
Arguments mkRequester {T E} _.
Arguments client {T E} _.

Definition NewRequester {T E} (client : Client) : Requester T E := mkRequester client.

Record requestQuery : Type := mkRequestQuery {
  rqQuery : Query;
  rqVariables : QueryVariables
}.

(** [json.NewEncoder(w).Encode(v)] for a buffer [w] and a [requestQuery]:
    the fields in the order of the struct under their tags, and a newline
    after the document. *)
Definition Encode_requestQuery (v : requestQuery) : string + errval :=
  match encode_vars (rqVariables v) with
  | inr err => inr err
  | inl ev =>
    inl (dq "{'query':" +:+ encodeString (rqQuery v) +:+ dq ",'variables':" +:+ ev +:+ "}"
         +:+ newline)
  end.

Section Dispatcher.
Context {T E : Type} `{!Decoder T E, !Multipart, !Runtime}.

(** [var res Response[T, E]]. *)
Definition zero_Response : Response T E := mkResponse zero_Data [].

Definition setRequestHeaders (r : Requester T E) (httpReq : HttpRequest)
    (req : Request) (contentType : string) : HttpRequest :=
  let h := Header_Set (hHeader httpReq) "Content-Type" contentType in
  let h := Header_Set h "Accept" "application/json; charset=utf-8" in
  let h :=
    foldl (λ h kv, foldl (λ h v, Header_Add h kv.1 v) h kv.2)
          h (range_Header (Header req)) in
  mkHttpRequest (hCtx httpReq) (hMethod httpReq) (hURL httpReq) h
                (hBody httpReq) (closeReq (client r)).

Definition requestJSON (r : Requester T E) (ctx : Context) (req : Request)
    : Net (Response T E * error) :=
  let response := zero_Response in
  match Encode_requestQuery (mkRequestQuery (q req) (vars req)) with
  | inr err => mret (response, Some err)
  | inl request =>
  match NewRequestWithContext ctx MethodPost (endpoint (client r)) request with
  | inr err => mret (response, Some err)
  | inl httpReq =>
  let httpReq := setRequestHeaders r httpReq req "application/json; charset=utf-8" in
  httpRes ← Do (httpClient (client r)) (WithContext httpReq ctx);
  match httpRes with
  | inr err => mret (response, Some err)
  | inl httpRes =>
  defer_Close httpRes (
    match io_ReadAll (rBody httpRes) with
    | (body, Some err) => mret (response, NewError (Some err) ErrReadBody)
    | (body, None) =>
    match json_Unmarshal body response with
    | (response, Some err) =>
      if bool_decide (StatusCode httpRes ≠ StatusOK)
      then mret (response, Some (fmt_Errorf_v_v ErrRequest (StatusCode httpRes)))
      else mret (response, errors_Wrap (Some err) "decoding response")
    | (response, None) => mret (response, None)
    end
    end)
  end
  end
  end.

(** The block under [if len(req.vars) > 0]: the error is already the one
    the function returns. *)
Definition write_variables (writer : Writer) (req : Request) : Writer * error :=
  match CreateFormField writer "variables" with
  | (writer, Some err) => (writer, NewError (Some err) ErrCreateVariablesField)
  | (writer, None) =>
    match encode_vars (vars req) with
    | inr err => (writer, NewError (Some err) ErrEncodeVariablesField)
    | inl b =>
      match part_Write writer (b +:+ newline) with
      | (writer, Some err) => (writer, NewError (Some err) ErrEncodeVariablesField)
      | (writer, None) => (writer, None)
      end
    end
  end.

(** [io.Copy(part, r)]: a failed write ends the copy, else the error of
    the reader does, unless it is the end of the file. *)
Definition io_Copy (part : Writer) (r : Reader) : Writer * error :=
  match part_Write part (content r) with
  | (part, Some err) => (part, Some err)
  | (part, None) => (part, failure r)
  end.

(** The loop [for i := range req.files]. *)
Fixpoint write_files (writer : Writer) (files : list File) : Writer * error :=
  match files with
  | [] => (writer, None)
  | f :: rest =>
    match CreateFormFile writer (Field f) (Name f) with
    | (writer, Some err) => (writer, NewError (Some err) ErrCreateFile)
    | (part, None) =>
      match io_Copy part (R f) with
      | (writer, Some err) => (writer, NewError (Some err) ErrCopy)
      | (writer, None) => write_files writer rest
      end
    end
  end.

Definition requestMultipart (r : Requester T E) (ctx : Context) (req : Request)
    : Net (Response T E * error) :=
  let response := zero_Response in
  let writer := NewWriter in
  match WriteField writer "query" (Query_String (q req)) with
  | (writer, Some err) => mret (response, Some err)
  | (writer, None) =>
  match (if bool_decide (0 < len_vars (vars req))%nat
         then write_variables writer req else (writer, None)) with
  | (writer, Some err) => mret (response, Some err)
  | (writer, None) =>
  match write_files writer (files req) with
  | (writer, Some err) => mret (response, Some err)
  | (writer, None) =>
  match Writer_Close writer with
  | (writer, Some err) => mret (response, errors_Wrap (Some err) "close writer")
  | (writer, None) =>
  match NewRequestWithContext ctx MethodPost (endpoint (client r)) (Bytes writer) with
  | inr err => mret (response, Some err)
  | inl httpReq =>
  let httpReq := setRequestHeaders r httpReq req (FormDataContentType writer) in
  httpRes ← Do (httpClient (client r)) httpReq;
  match httpRes with
  | inr err => mret (response, Some err)
  | inl httpRes =>
  defer_Close httpRes (
    match io_ReadAll (rBody httpRes) with
    | (body, Some err) =>
      if bool_decide (StatusCode httpRes ≠ StatusOK)
      then mret (response, Some (fmt_Errorf_v_v ErrRequest (StatusCode httpRes)))
      else mret (response, NewError (Some err) ErrReadBody)
    | (body, None) =>
    match json_Unmarshal body response with
    | (response, Some err) => mret (response, NewError (Some err) ErrDecode)
    | (response, None) => mret (response, None)
    end
    end)
  end
  end
  end
  end
  end
  end.

Definition Requester_Request (r : Requester T E) (ctx : Context) (req : Request)
    : Net (Response T E * error) :=
  let res := zero_Response in
  if bool_decide (0 < length (files req))%nat && negb (useMultipartForm (client r))
  then mret (res, Some ErrInvalidInput)
  else if useMultipartForm (client r)
  then requestMultipart r ctx req
  else requestJSON r ctx req.

(** The request each strategy hands to the transport, or the error it
    returns before it gets there: the part of [requestJSON] and of
    [requestMultipart] above the call of [Do]. *)
Definition json_outbound (r : Requester T E) (ctx : Context) (req : Request)
    : HttpRequest + errval :=
  match Encode_requestQuery (mkRequestQuery (q req) (vars req)) with
  | inr err => inr err
  | inl request =>
    match NewRequestWithContext ctx MethodPost (endpoint (client r)) request with
    | inr err => inr err
    | inl httpReq =>
      inl (WithContext
             (setRequestHeaders r httpReq req "application/json; charset=utf-8") ctx)
    end
  end.

(** The multipart form of a request: the writer after a successful
    [Close], or the error returned on the way. *)
Definition multipart_form (req : Request) : Writer + errval :=
  match WriteField NewWriter "query" (Query_String (q req)) with
  | (_, Some err) => inr err
  | (writer, None) =>
  match (if bool_decide (0 < len_vars (vars req))%nat
         then write_variables writer req else (writer, None)) with
  | (_, Some err) => inr err
  | (writer, None) =>
  match write_files writer (files req) with
  | (_, Some err) => inr err
  | (writer, None) =>
  match Writer_Close writer with
  | (_, Some err) => inr (withMessage err "close writer")
  | (writer, None) => inl writer
  end
  end
  end
  end.

Definition multipart_outbound (r : Requester T E) (ctx : Context) (req : Request)
    : HttpRequest + errval :=
  match multipart_form req with
  | inr err => inr err
  | inl writer =>
    match NewRequestWithContext ctx MethodPost (endpoint (client r)) (Bytes writer) with
    | inr err => inr err
    | inl httpReq =>
      inl (setRequestHeaders r httpReq req (FormDataContentType writer))
    end
  end.

Definition outbound (r : Requester T E) (ctx : Context) (req : Request)
    : HttpRequest + errval :=
  if useMultipartForm (client r)
  then multipart_outbound r ctx req
  else json_outbound r ctx req.

End Dispatcher.

(** ** The header merge, spelled out *)

(** The values [setRequestHeaders] sets under a key before it copies the
    headers of the request. *)
Definition computed_values (contentType key : string) : list string :=
  if decide (key = "Content-Type") then [contentType]
  else if decide (key = "Accept") then ["application/json; charset=utf-8"]
  else [].

(** The values of the entries, in the order given, whose key has the
    canonical form [key]. *)
Definition copied_values (entries : list (string * list string)) (key : string)
    : list string :=
  concat (snd <$> filter (λ kv, CanonicalMIMEHeaderKey kv.1 = key) entries).

(** A header whose keys all are in canonical form: what [Set] and [Add]
    make from an empty header. *)
Definition canonical_keys (h : http_Header) : Prop :=
  ∀ key values, h !! key = Some values → CanonicalMIMEHeaderKey key = key.

(** ** The error categories, as a test on an error *)

(** [strings.HasPrefix]. *)
Fixpoint HasPrefix (s prefix : string) {struct prefix} : bool :=
  match prefix, s with
  | "", _ => true
  | String a prefix', String b s' => (a =? b)%char && HasPrefix s' prefix'
  | String _ _, "" => false
  end.

(** An error of a named category: one of the eight values, a cause wrapped
    under the message of one of them, or a text that starts with the message
    of [ErrRequest] and a colon. *)
Definition categorized (e : errval) : bool :=
  match e with
  | fundamental _ => bool_decide (e ∈ named_categories)
  | withMessage _ msg => bool_decide (msg ∈ Error <$> named_categories)
  | errorString s => HasPrefix s (Error ErrRequest +:+ ": ")
  end.

(** ** What a call can return *)

Section Outcomes.
Context {T E : Type} `{!Decoder T E, !Multipart, !Runtime}.






End Outcomes.

(** ** Instances for the examples *)

(** The types of the tests of the package. *)
Record testData : Type := mkTestData { Something : string }.
Record testErrorExtension : Type := mkTestErrorExtension {
  ext_Message : string;
  ext_Code : Z
}.

Definition body_yes : string :=
  dq "{'data':{'something':'yes'},'errors':null}".
Definition body_extension_error : string :=
  dq "{'data':{'something':''},'errors':[{'message':'bad request','extensions':{'message':'extension error','code':400}}]}".
Definition body_errors_mistyped : string :=
  dq "{'data':{'something':'yes'},'errors':5}".

(** A decoder for the bodies of the examples: what encoding/json makes of
    each of them for these types; any other body is taken as not being
    JSON.  A body with a value of the wrong type under "errors" is decoded
    as far as it goes and reported. *)
Definition test_Unmarshal (body : string)
    (response : Response testData testErrorExtension)
    : Response testData testErrorExtension * error :=
  if decide (body = body_yes) then
    (mkResponse (mkTestData "yes") [], None)
  else if decide (body = body_extension_error) then
    (mkResponse (mkTestData "")
       [mkGraphError "bad request" (mkTestErrorExtension "extension error" 400)],
     None)
  else if decide (body = body_errors_mistyped) then
    (mkResponse (mkTestData "yes") (Errors response),
     Some (errorString "json: cannot unmarshal number into Go struct field Response.errors of type []GraphError"))
  else
    (response, Some (errorString "invalid character 'I' looking for beginning of value")).

#[global] Instance test_Decoder : Decoder testData testErrorExtension := {|
  zero_Data := mkTestData "";
  json_Unmarshal := test_Unmarshal
|}.

(** A multipart writer over a fixed boundary whose writes never fail. *)
Record test_writer : Type := mkTestWriter {
  buffer : string;
  has_part : bool
}.

Definition test_boundary : string := "6f1b2c3d4e5f60718293a4b5c6d7e8f9".
Definition CRLF : string := String "013" (newline).

Fixpoint escapeQuotes (s : string) : string :=
  match s with
  | "" => ""
  | String c s' =>
    (if (c =? quote)%char then dq "\'" else if (c =? "\")%char then "\\" else String c "")
    +:+ escapeQuotes s'
  end.

Definition test_CreatePart (w : test_writer) (header : string) : test_writer :=
  mkTestWriter
    (buffer w +:+ (if has_part w then CRLF else "") +:+ "--" +:+ test_boundary +:+ CRLF
     +:+ header +:+ CRLF)
    true.

Definition test_CreateFormField (w : test_writer) (name : string) : test_writer :=
  test_CreatePart w
    (dq "Content-Disposition: form-data; name='" +:+ escapeQuotes name +:+ dq "'" +:+ CRLF).

Definition test_CreateFormFile (w : test_writer) (fieldname filename : string) : test_writer :=
  test_CreatePart w
    (dq "Content-Disposition: form-data; name='" +:+ escapeQuotes fieldname
     +:+ dq "'; filename='" +:+ escapeQuotes filename +:+ dq "'" +:+ CRLF
     +:+ "Content-Type: application/octet-stream" +:+ CRLF).

Definition test_Write (w : test_writer) (p : string) : test_writer :=
  mkTestWriter (buffer w +:+ p) (has_part w).

#[global] Instance test_Multipart : Multipart := {|
  Writer := test_writer;
  NewWriter := mkTestWriter "" false;
  WriteField w name v := (test_Write (test_CreateFormField w name) v, None);
  CreateFormField w name := (test_CreateFormField w name, None);
  CreateFormFile w fieldname filename := (test_CreateFormFile w fieldname filename, None);
  part_Write w p := (test_Write w p, None);
  Writer_Close w :=
    (mkTestWriter (buffer w +:+ CRLF +:+ "--" +:+ test_boundary +:+ "--" +:+ CRLF)
                  (has_part w), None);
  FormDataContentType w := "multipart/form-data; boundary=" +:+ test_boundary;
  Bytes := buffer
|}.

(** A runtime for the examples, with endpoints of bytes below 0x80: it
    ranges over a header in the order of [map_to_list], and its URL parser
    knows the rule on control bytes. *)
Definition is_control (c : ascii) : bool :=
  let n := N_of_ascii c in (n <? 32)%N || (n =? 127)%N.

Fixpoint any_byte (p : ascii → bool) (s : string) : bool :=
  match s with
  | "" => false
  | String c s' => p c || any_byte p s'
  end.

(** [strconv.Quote] on a string of bytes below 0x80, as the verb q of
    [fmt] writes the URL in the text of a [url.Error]. *)
Definition quote_byte (c : ascii) : string :=
  let n := N_of_ascii c in
  if (c =? quote)%char then dq "\'"
  else if (c =? "\")%char then "\\"
  else if (n =? 7)%N then "\a"
  else if (n =? 8)%N then "\b"
  else if (n =? 12)%N then "\f"
  else if (n =? 10)%N then "\n"
  else if (n =? 13)%N then "\r"
  else if (n =? 9)%N then "\t"
  else if (n =? 11)%N then "\v"
  else if is_control c
  then "\x" +:+ String (hex_digit (N.shiftr n 4)) (String (hex_digit (N.land n 15)) "")
  else String c "".

Fixpoint quote_bytes (s : string) : string :=
  match s with
  | "" => ""
  | String c s' => quote_byte c +:+ quote_bytes s'
  end.

Definition strconv_Quote (s : string) : string := dq "'" +:+ quote_bytes s +:+ dq "'".

(** One rule of [url.Parse], for the examples: an endpoint with a control
    byte is refused, with the text [url.Error] gives the failure. *)
Definition test_url_Parse (url : string) : error :=
  if any_byte is_control url
  then Some (errorString ("parse " +:+ strconv_Quote url
                          +:+ ": net/url: invalid control character in URL"))
  else None.

#[global] Program Instance test_Runtime : Runtime := {|
  range_Header := map_to_list;
  url_Parse := test_url_Parse
|}.
Next Obligation. done. Qed.

(** Transports: one that answers every request with the same response, one
    that fails to connect. *)
Definition answering (status : Z) (body : Reader) : HTTPRequestDoer :=
  λ _ _, inl (mkHttpResponse status body).

Definition refusing : HTTPRequestDoer :=
  λ _ _, inr (errorString "dial tcp 127.0.0.1:80: connect: connection refused").

Definition test_endpoint : string := "http://127.0.0.1/graphql".

Definition test_requester (d : HTTPRequestDoer) (multipart : bool)
    : Requester testData testErrorExtension :=
  NewRequester (mkClient d test_endpoint multipart false).

Definition test_ctx : Context := mkContext None.

(** Requests and response bodies: a request with a file, the request of the
    tests with a variable, a body that breaks off, a body that is not
    JSON. *)
Definition upload_request : Request :=
  Request_File (NewRequest "query {}") "file" "a.txt" (mkReader "hello" None).

Definition username_request : Request :=
  Var (NewRequest "query {}") "username" (VString "testUser").

Definition broken_body : Reader := mkReader "Internal Ser" (Some (errorString "unexpected EOF")).
Definition plain_text_body : Reader := mkReader "Internal Server error" None.

(** ** The client options *)

(** The struct [Client] while [NewClient] builds it: the transport is nil
    until an option sets it. *)
Record ClientFields : Type := mkClientFields {
  f_httpClient : option HTTPRequestDoer;
  f_endpoint : string;
  f_useMultipartForm : bool;
  f_closeReq : bool
}.

Definition ClientOption : Type := ClientFields → ClientFields.

(** [NewClient]: the options run in order on a client that has only the
    endpoint, and a transport that is still nil becomes
    [http.DefaultClient], which is the first argument here. *)
Definition NewClient (DefaultClient : HTTPRequestDoer) (endpoint : string)
    (opts : list ClientOption) : Client :=
  let c := foldl (λ c optionFunc, optionFunc c)
                 (mkClientFields None endpoint false false) opts in
  mkClient (default DefaultClient (f_httpClient c)) (f_endpoint c)
           (f_useMultipartForm c) (f_closeReq c).

Definition WithHTTPClient (httpclient : HTTPRequestDoer) : ClientOption :=
  λ client,
    mkClientFields (Some httpclient) (f_endpoint client)
                   (f_useMultipartForm client) (f_closeReq client).

Definition UseMultipartForm : ClientOption :=
  λ client,
    mkClientFields (f_httpClient client) (f_endpoint client) true (f_closeReq client).

Definition ImmediatelyCloseReqBody : ClientOption :=
  λ client,
    mkClientFields (f_httpClient client) (f_endpoint client)
                   (f_useMultipartForm client) true.

(** The options the package provides, by name. *)
Inductive option_name : Type :=
| OWithHTTPClient (httpclient : HTTPRequestDoer)
| OUseMultipartForm
| OImmediatelyCloseReqBody.

Definition option_of (o : option_name) : ClientOption :=
  match o with
  | OWithHTTPClient httpclient => WithHTTPClient httpclient
  | OUseMultipartForm => UseMultipartForm
  | OImmediatelyCloseReqBody => ImmediatelyCloseReqBody
  end.

Definition is_OUseMultipartForm (o : option_name) : bool :=
  match o with
  | OUseMultipartForm => true
  | _ => false
  end.

Definition is_OImmediatelyCloseReqBody (o : option_name) : bool :=
  match o with
  | OImmediatelyCloseReqBody => true
  | _ => false
  end.

Definition transport_of (o : option_name) : option HTTPRequestDoer :=
  match o with
  | OWithHTTPClient httpclient => Some httpclient
  | _ => None
  end.

(** ** Readings of a list of builder calls *)

Definition file_of (o : builder_op) : option File :=
  match o with
  | OpFile fieldname filename r => Some (mkFile fieldname filename r)
  | _ => None
  end.

Definition var_of (key : string) (o : builder_op) : option value :=
  match o with
  | OpVar key' v => if decide (key' = key) then Some v else None
  | _ => None
  end.

(** The map a request has for its variables, the nil map read as empty. *)
Definition vars_map (req : Request) : gmap string value := default ∅ (vars req).

(** ** Conditions on the inputs of a call *)

(** The values encoding/json encodes. *)
Definition encodable (v : value) : bool :=
  match v with
  | VChan => false
  | _ => true
  end.

Definition vars_encodable (vars : QueryVariables) : Prop :=
  map_Forall (λ _ v, encodable v = true) (default ∅ vars).

(** A reader that ends in a plain end of file. *)
Definition reads_to_end (f : File) : Prop := failure (R f) = None.

(** A multipart writer none of whose operations fails, as one over a
    [bytes.Buffer]. *)
Definition reliable_writer `{!Multipart} : Prop :=
  (∀ w name v, (WriteField w name v).2 = None)
  ∧ (∀ w name, (CreateFormField w name).2 = None)
  ∧ (∀ w fieldname filename, (CreateFormFile w fieldname filename).2 = None)
  ∧ (∀ w p, (part_Write w p).2 = None)
  ∧ (∀ w, (Writer_Close w).2 = None).

(** ** More instances for the examples *)

(** A multipart writer over a buffer that takes [limit] bytes and no more:
    an operation that would go past the limit fails and leaves the writer
    as it was. *)
Definition limited (limit : nat) (w w' : test_writer) : test_writer * error :=
  if bool_decide (String.length (buffer w') ≤ limit)%nat
  then (w', None)
  else (w, Some (errorString "write: no space left on device")).

Definition limited_Multipart (limit : nat) : Multipart := {|
  Writer := test_writer;
  NewWriter := mkTestWriter "" false;
  WriteField w name v := limited limit w (test_Write (test_CreateFormField w name) v);
  CreateFormField w name := limited limit w (test_CreateFormField w name);
  CreateFormFile w fieldname filename :=
    limited limit w (test_CreateFormFile w fieldname filename);
  part_Write w p := limited limit w (test_Write w p);
  Writer_Close w :=
    limited limit w
      (mkTestWriter (buffer w +:+ CRLF +:+ "--" +:+ test_boundary +:+ "--" +:+ CRLF)
                    (has_part w));
  FormDataContentType w := "multipart/form-data; boundary=" +:+ test_boundary;
  Bytes := buffer
|}.

Definition channel_request : Request :=
  Var (NewRequest "query {}") "events" VChan.

Definition broken_upload_request : Request :=
  Request_File
    (Request_File upload_request "second" "b.txt"
       (mkReader "hel" (Some (errorString "unexpected EOF"))))
    "third" "c.txt" (mkReader "never read" None).

Definition sparse_header_request : Request :=
  mkRequest "query {}" None [] (<["x-empty" := []]> {["x-one" := ["1"]]}).

Definition test_bad_endpoint : string := "http://127.0.0.1/" +:+ String "010" "graphql".

(** * Properties *)

(** ** The request builder *)

Lemma apply_ops_query req ops : q (foldl apply_op req ops) = q req.
Proof.
  revert req. induction ops as [|o ops IH]; intros req; [done|].
  cbn. rewrite IH. by destruct o.
Qed.

Lemma build_query q0 ops : q (build q0 ops) = q0.
Proof. apply apply_ops_query. Qed.

Lemma apply_ops_vars_nil req ops :
  Forall (λ o, is_OpVar o = false) ops →
  vars req = None → vars (foldl apply_op req ops) = None.
Proof.
  intros Hops. revert req. induction Hops as [|o ops Ho _ IH]; intros req Hreq; [done|].
  cbn. apply IH. by destruct o.
Qed.

Lemma build_vars_nil q0 ops :
  Forall (λ o, is_OpVar o = false) ops → vars (build q0 ops) = None.
Proof. intros Hops. by apply apply_ops_vars_nil. Qed.

(** [Var] makes the map when it is nil, so one call leaves a map that is
    not nil, and an empty map that is not nil is written as an object. *)
Example Var_makes_map :
  vars (Var (NewRequest "query {}") "username" (VString "testUser"))
  = Some {[ "username" := VString "testUser" ]}.
Proof. reflexivity. Qed.

Example empty_map_is_object : encode_vars (Some ∅) = inl "{}".
Proof. reflexivity. Qed.

(** The string encoder outside ASCII: a byte that is not UTF-8 becomes the
    escape of U+FFFD, the line separator U+2028 is escaped, an accented
    letter is copied. *)
Example encodeString_not_UTF8 :
  encodeString (String "255" "") = dq "'" +:+ "\u" +:+ "fffd" +:+ dq "'".
Proof. reflexivity. Qed.

Example encodeString_line_separator :
  encodeString ("a" +:+ String "226" (String "128" (String "168" "z")))
  = dq "'a" +:+ "\u" +:+ "2028" +:+ dq "z'".
Proof. reflexivity. Qed.

Example encodeString_accent :
  encodeString (String "195" (String "169" "<"))
  = dq "'" +:+ String "195" (String "169" "") +:+ "\u" +:+ "003c" +:+ dq "'".
Proof. reflexivity. Qed.

(** ** The named categories *)

Lemma categorized_status code : categorized (fmt_Errorf_v_v ErrRequest code) = true.
Proof. vm_compute. reflexivity. Qed.

Lemma categorized_NewError cause cat e :
  cat ∈ named_categories →
  NewError (Some cause) cat = Some e →
  categorized e = true.
Proof.
  intros Hcat [= <-]. unfold categorized. apply bool_decide_eq_true.
  by apply list_elem_of_fmap_2.
Qed.

(** ** The header merge *)

Lemma Header_Add_values h key v k :
  default [] (Header_Add h key v !! k)
  = default [] (h !! k) ++ (if decide (CanonicalMIMEHeaderKey key = k) then [v] else []).
Proof.
  unfold Header_Add, Header_Values.
  destruct (decide (CanonicalMIMEHeaderKey key = k)) as [<-|Hne].
  - by rewrite lookup_insert_eq.
  - rewrite lookup_insert_ne by done. by rewrite app_nil_r.
Qed.

Lemma add_values h key vs k :
  default [] (foldl (λ h v, Header_Add h key v) h vs !! k)
  = default [] (h !! k) ++ (if decide (CanonicalMIMEHeaderKey key = k) then vs else []).
Proof.
  revert h. induction vs as [|v vs IH]; intros h; cbn.
  - destruct (decide _); by rewrite app_nil_r.
  - rewrite IH, Header_Add_values.
    destruct (decide _); by rewrite <- app_assoc.
Qed.

Lemma add_entries h (entries : list (string * list string)) k :
  default [] (foldl (λ h kv, foldl (λ h v, Header_Add h kv.1 v) h kv.2) h entries !! k)
  = default [] (h !! k) ++ copied_values entries k.
Proof.
  revert h. induction entries as [|[key vs] entries IH]; intros h; cbn.
  - by rewrite app_nil_r.
  - rewrite IH, add_values. unfold copied_values.
    destruct (decide _); cbn; by rewrite <- ?app_assoc.
Qed.

Lemma computed_headers contentType k :
  default []
    (Header_Set (Header_Set ∅ "Content-Type" contentType)
                "Accept" "application/json; charset=utf-8" !! k)
  = computed_values contentType k.
Proof.
  unfold Header_Set, computed_values.
  change (CanonicalMIMEHeaderKey "Content-Type") with "Content-Type".
  change (CanonicalMIMEHeaderKey "Accept") with "Accept".
  destruct (decide (k = "Content-Type")) as [->|Hct].
  { by rewrite lookup_insert_ne, lookup_insert_eq. }
  destruct (decide (k = "Accept")) as [->|Hacc].
  { by rewrite lookup_insert_eq. }
  by rewrite !lookup_insert_ne, lookup_empty.
Qed.

(** The values of an entry stay together, in their order, among the values
    copied under the canonical form of its key. *)
Lemma copied_values_entry (entries : list (string * list string)) key values :
  (key, values) ∈ entries →
  ∃ before after,
    copied_values entries (CanonicalMIMEHeaderKey key) = before ++ values ++ after.
Proof.
  intros (l1 & l2 & ->)%list_elem_of_split. unfold copied_values.
  rewrite filter_app, filter_cons_True by done.
  rewrite fmap_app, concat_app. cbn. eauto.
Qed.

(** ** Canonical keys *)

Lemma canonical_byte_valid upper c :
  validHeaderFieldByte (canonical_byte upper c) = validHeaderFieldByte c.
Proof. destruct upper, c as [[] [] [] [] [] [] [] []]; reflexivity. Qed.

Lemma canonical_byte_idemp upper c :
  canonical_byte upper (canonical_byte upper c) = canonical_byte upper c.
Proof. destruct upper, c as [[] [] [] [] [] [] [] []]; reflexivity. Qed.

Lemma canonical_go_valid upper s :
  all_bytes validHeaderFieldByte (canonical_go upper s)
  = all_bytes validHeaderFieldByte s.
Proof.
  revert upper. induction s as [|c s IH]; intros upper; [done|].
  cbn. by rewrite canonical_byte_valid, IH.
Qed.

Lemma canonical_go_idemp upper s :
  canonical_go upper (canonical_go upper s) = canonical_go upper s.
Proof.
  revert upper. induction s as [|c s IH]; intros upper; [done|].
  cbn. rewrite canonical_byte_idemp. f_equal. apply IH.
Qed.

(** [CanonicalMIMEHeaderKey] leaves its own results as they are. *)
Lemma CanonicalMIMEHeaderKey_idemp s :
  CanonicalMIMEHeaderKey (CanonicalMIMEHeaderKey s) = CanonicalMIMEHeaderKey s.
Proof.
  unfold CanonicalMIMEHeaderKey.
  destruct (all_bytes validHeaderFieldByte s) eqn:Hvalid.
  - by rewrite canonical_go_valid, Hvalid, canonical_go_idemp.
  - by rewrite Hvalid.
Qed.

Lemma canonical_keys_empty : canonical_keys ∅.
Proof. intros key values. by rewrite lookup_empty. Qed.

Lemma canonical_keys_insert h key values :
  canonical_keys h →
  canonical_keys (<[CanonicalMIMEHeaderKey key := values]> h).
Proof.
  intros Hh key' values' Hlookup.
  destruct (decide (CanonicalMIMEHeaderKey key = key')) as [<-|Hne].
  - apply CanonicalMIMEHeaderKey_idemp.
  - rewrite lookup_insert_ne in Hlookup by done. by eapply Hh.
Qed.

Lemma apply_ops_canonical_keys req ops :
  canonical_keys (Header req) → canonical_keys (Header (foldl apply_op req ops)).
Proof.
  revert req. induction ops as [|o ops IH]; intros req Hreq; [done|].
  cbn. apply IH. destruct o; cbn; [done|done|..];
    by apply canonical_keys_insert.
Qed.

Lemma build_canonical_keys q0 ops : canonical_keys (Header (build q0 ops)).
Proof. apply apply_ops_canonical_keys, canonical_keys_empty. Qed.

(** ** The dispatcher *)

Section Properties.
Context {T E : Type} `{!Decoder T E, !Multipart, !Runtime}.
Implicit Types (r : Requester T E) (ctx : Context) (req : Request).
Implicit Types (log : list event) (hr : HttpRequest) (httpRes : HttpResponse).

(** Unfolds the monad of [Net] down to functions on the log. *)
Ltac run_net :=
  unfold Do, defer_Close, tell; unfold mbind, Net_bind, mret, Net_ret; cbn beta iota.

(** With the flag off and no files, [Request] is [requestJSON]. *)
Lemma Request_json r ctx req :
  useMultipartForm (client r) = false → files req = [] →
  Requester_Request r ctx req = requestJSON r ctx req.
Proof.
  intros Hflag Hfiles. unfold Requester_Request.
  rewrite Hflag, Hfiles. reflexivity.
Qed.

(** With the flag on, [Request] is [requestMultipart]. *)
Lemma Request_multipart r ctx req :
  useMultipartForm (client r) = true →
  Requester_Request r ctx req = requestMultipart r ctx req.
Proof.
  intros Hflag. unfold Requester_Request.
  rewrite Hflag, andb_false_r. reflexivity.
Qed.

(** [requestJSON] once its request is built: the transport is called once
    with that request, and the rest depends on its answer. *)
Lemma requestJSON_sent r ctx req hr log :
  json_outbound r ctx req = inl hr →
  requestJSON r ctx req log =
    match httpClient (client r) hr log with
    | inr err => ((zero_Response, Some err), log ++ [EvDo hr])
    | inl httpRes =>
      match io_ReadAll (rBody httpRes) with
      | (_, Some err) =>
        ((zero_Response, NewError (Some err) ErrReadBody),
         log ++ [EvDo hr; EvClose httpRes])
      | (body, None) =>
        match json_Unmarshal body zero_Response with
        | (response, Some err) =>
          ((response,
            if bool_decide (StatusCode httpRes ≠ StatusOK)
            then Some (fmt_Errorf_v_v ErrRequest (StatusCode httpRes))
            else errors_Wrap (Some err) "decoding response"),
           log ++ [EvDo hr; EvClose httpRes])
        | (response, None) => ((response, None), log ++ [EvDo hr; EvClose httpRes])
        end
      end
    end.
Proof.
  unfold json_outbound, requestJSON. intros Hout.
  destruct (Encode_requestQuery _) as [request|]; [|discriminate].
  destruct (NewRequestWithContext _ _ _ _) as [httpReq|]; [|discriminate].
  injection Hout as <-. run_net.
  destruct (httpClient _ _ _) as [httpRes|err]; [|reflexivity].
  destruct (io_ReadAll _) as [body [err|]]; cbn; [by rewrite <- app_assoc|].
  destruct (json_Unmarshal _ _) as [response [err|]]; cbn.
  - case_bool_decide; cbn; by rewrite <- app_assoc.
  - by rewrite <- app_assoc.
Qed.

(** The same for [requestMultipart]. *)
Lemma requestMultipart_sent r ctx req hr log :
  multipart_outbound r ctx req = inl hr →
  requestMultipart r ctx req log =
    match httpClient (client r) hr log with
    | inr err => ((zero_Response, Some err), log ++ [EvDo hr])
    | inl httpRes =>
      match io_ReadAll (rBody httpRes) with
      | (_, Some err) =>
        ((zero_Response,
          if bool_decide (StatusCode httpRes ≠ StatusOK)
          then Some (fmt_Errorf_v_v ErrRequest (StatusCode httpRes))
          else NewError (Some err) ErrReadBody),
         log ++ [EvDo hr; EvClose httpRes])
      | (body, None) =>
        match json_Unmarshal body zero_Response with
        | (response, Some err) =>
          ((response, NewError (Some err) ErrDecode), log ++ [EvDo hr; EvClose httpRes])
        | (response, None) => ((response, None), log ++ [EvDo hr; EvClose httpRes])
        end
      end
    end.
Proof.
  unfold multipart_outbound, multipart_form, requestMultipart. intros Hout.
  destruct (WriteField _ _ _) as [w1 [?|]]; [discriminate|].
  destruct (if bool_decide _ then _ else _) as [w2 [?|]]; [discriminate|].
  destruct (write_files _ _) as [w3 [?|]]; [discriminate|].
  destruct (Writer_Close _) as [w4 [?|]]; [discriminate|].
  destruct (NewRequestWithContext _ _ _ _) as [httpReq|]; [|discriminate].
  injection Hout as <-. run_net.
  destruct (httpClient _ _ _) as [httpRes|err]; [|reflexivity].
  destruct (io_ReadAll _) as [body [err|]]; cbn.
  - case_bool_decide; cbn; by rewrite <- app_assoc.
  - destruct (json_Unmarshal _ _) as [response [err|]]; cbn; by rewrite <- app_assoc.
Qed.

(** C1. A request that carries at least one file, sent through a client
    whose multipart flag is off, is refused at once: [Request] returns the
    zero response and [ErrInvalidInput], and the log of the transport is
    what it was, so [Do] was not called. *)
Theorem Request_files_without_multipart r ctx req log :
  (0 < length (files req))%nat →
  useMultipartForm (client r) = false →
  Requester_Request r ctx req log = ((zero_Response, Some ErrInvalidInput), log).
Proof.
  intros Hfiles Hflag. unfold Requester_Request.
  rewrite Hflag, bool_decide_eq_true_2 by done. reflexivity.
Qed.

(** C9. For a request that has no files unless the client has the
    multipart flag on, [Request] is [requestMultipart] when the flag is on
    and [requestJSON] when it is off: the flag alone picks the strategy,
    whatever the files are. *)
Theorem Request_strategy_by_flag r ctx req :
  ((0 < length (files req))%nat → useMultipartForm (client r) = true) →
  Requester_Request r ctx req =
    if useMultipartForm (client r)
    then requestMultipart r ctx req
    else requestJSON r ctx req.
Proof.
  intros Hpre. destruct (useMultipartForm (client r)) eqn:Hflag.
  - by apply Request_multipart.
  - apply Request_json; [done|].
    destruct (files req) as [|f fs]; [done|].
    cbn in Hpre. discriminate Hpre. lia.
Qed.

(** C10. In the JSON strategy a failed read of the response body gives
    the zero response and the read error wrapped as [ErrReadBody], whatever
    the status code is; the error is never the status error of
    [ErrRequest]. *)
Theorem requestJSON_read_failure r ctx req log hr httpRes body rerr :
  useMultipartForm (client r) = false →
  files req = [] →
  json_outbound r ctx req = inl hr →
  httpClient (client r) hr log = inl httpRes →
  io_ReadAll (rBody httpRes) = (body, Some rerr) →
  Requester_Request r ctx req log =
    ((zero_Response, NewError (Some rerr) ErrReadBody),
     log ++ [EvDo hr; EvClose httpRes])
  ∧ NewError (Some rerr) ErrReadBody = Some (withMessage rerr "read body")
  ∧ NewError (Some rerr) ErrReadBody
      ≠ Some (fmt_Errorf_v_v ErrRequest (StatusCode httpRes)).
Proof.
  intros Hflag Hfiles Hout Hdo Hread.
  rewrite Request_json, (requestJSON_sent _ _ _ hr), Hdo, Hread by done.
  done.
Qed.

(** C2. In the JSON strategy, when the body was read and decoding it
    fails: with a status other than 200 the error is the status error of
    [ErrRequest], in which the decode error does not appear, and for status
    500 its text is "graphql: server returned a non-200 status code: 500";
    with status 200 the error is the decode error wrapped under
    "decoding response": its cause is the cause of the decode error and its
    text is that message, a colon and the text of the decode error. *)
Theorem requestJSON_decode_failure r ctx req log hr httpRes body response derr :
  useMultipartForm (client r) = false →
  files req = [] →
  json_outbound r ctx req = inl hr →
  httpClient (client r) hr log = inl httpRes →
  io_ReadAll (rBody httpRes) = (body, None) →
  json_Unmarshal body zero_Response = (response, Some derr) →
  (StatusCode httpRes ≠ 200 →
     Requester_Request r ctx req log =
       ((response, Some (fmt_Errorf_v_v ErrRequest (StatusCode httpRes))),
        log ++ [EvDo hr; EvClose httpRes]))
  ∧ (StatusCode httpRes = 500 →
     ∃ e, (Requester_Request r ctx req log).1.2 = Some e
          ∧ Error e = "graphql: server returned a non-200 status code: 500")
  ∧ (StatusCode httpRes = 200 →
     ∃ e,
       Requester_Request r ctx req log =
         ((response, Some e), log ++ [EvDo hr; EvClose httpRes])
       ∧ errors_Wrap (Some derr) "decoding response" = Some e
       ∧ Cause e = Cause derr
       ∧ Error e = "decoding response: " +:+ Error derr).
Proof.
  intros Hflag Hfiles Hout Hdo Hread Hdec.
  rewrite Request_json, (requestJSON_sent _ _ _ hr), Hdo, Hread, Hdec by done.
  unfold StatusOK. split_and!.
  - intros Hne. by rewrite bool_decide_eq_true_2.
  - intros ->. eexists. split; [reflexivity|]. reflexivity.
  - intros ->. eexists. split_and!; reflexivity.
Qed.

(** C3. In the multipart strategy: a failed read of the body gives the
    status error of [ErrRequest] when the status is not 200 and the read
    error wrapped as [ErrReadBody] when it is 200; a body that was read and
    does not decode gives the decode error wrapped as [ErrDecode], whatever
    the status is. *)
Theorem requestMultipart_body_failures r ctx req log hr httpRes :
  useMultipartForm (client r) = true →
  multipart_outbound r ctx req = inl hr →
  httpClient (client r) hr log = inl httpRes →
  (∀ body rerr,
     io_ReadAll (rBody httpRes) = (body, Some rerr) →
     StatusCode httpRes ≠ 200 →
     Requester_Request r ctx req log =
       ((zero_Response, Some (fmt_Errorf_v_v ErrRequest (StatusCode httpRes))),
        log ++ [EvDo hr; EvClose httpRes]))
  ∧ (∀ body rerr,
     io_ReadAll (rBody httpRes) = (body, Some rerr) →
     StatusCode httpRes = 200 →
     Requester_Request r ctx req log =
       ((zero_Response, NewError (Some rerr) ErrReadBody),
        log ++ [EvDo hr; EvClose httpRes])
     ∧ NewError (Some rerr) ErrReadBody = Some (withMessage rerr "read body"))
  ∧ (∀ body response derr,
     io_ReadAll (rBody httpRes) = (body, None) →
     json_Unmarshal body zero_Response = (response, Some derr) →
     Requester_Request r ctx req log =
       ((response, NewError (Some derr) ErrDecode),
        log ++ [EvDo hr; EvClose httpRes])
     ∧ NewError (Some derr) ErrDecode = Some (withMessage derr "decode")).
Proof.
  intros Hflag Hout Hdo.
  rewrite Request_multipart, (requestMultipart_sent _ _ _ hr), Hdo by done.
  unfold StatusOK. split_and!.
  - intros body rerr -> Hne. by rewrite bool_decide_eq_true_2.
  - intros body rerr -> ->. done.
  - intros body response derr -> ->. done.
Qed.

(** C4. In either strategy, when the body was read and decodes, [Request]
    returns the decoded response and a nil error, whatever the status code
    is and whatever the response holds under [Errors]. *)
Theorem Request_decoded_is_success r ctx req log hr httpRes body response :
  ((0 < length (files req))%nat → useMultipartForm (client r) = true) →
  outbound r ctx req = inl hr →
  httpClient (client r) hr log = inl httpRes →
  io_ReadAll (rBody httpRes) = (body, None) →
  json_Unmarshal body zero_Response = (response, None) →
  Requester_Request r ctx req log =
    ((response, None), log ++ [EvDo hr; EvClose httpRes]).
Proof.
  intros Hpre Hout Hdo Hread Hdec. unfold outbound in Hout.
  destruct (useMultipartForm (client r)) eqn:Hflag.
  - rewrite Request_multipart, (requestMultipart_sent _ _ _ hr) by done.
    by rewrite Hdo, Hread, Hdec.
  - rewrite Request_json, (requestJSON_sent _ _ _ hr); [|done..|].
    + by rewrite Hdo, Hread, Hdec.
    + destruct (files req); [done|]. cbn in Hpre. discriminate Hpre. lia.
Qed.

(** The body of the request of the JSON strategy is what
    [Encode_requestQuery] wrote. *)
Lemma json_outbound_body r ctx req hr :
  json_outbound r ctx req = inl hr →
  Encode_requestQuery (mkRequestQuery (q req) (vars req)) = inl (hBody hr).
Proof.
  unfold json_outbound, NewRequestWithContext. intros Hout.
  destruct (Encode_requestQuery _) as [request|]; [|discriminate].
  destruct (url_Parse _); [discriminate|].
  by injection Hout as <-.
Qed.

(** In the JSON strategy, a request without files whose body the encoder
    wrote, to an endpoint that parses, is handed to the transport with that
    body, and the transport is not called again. *)
Lemma JSON_request_sent r ctx req log body :
  useMultipartForm (client r) = false →
  files req = [] →
  Encode_requestQuery (mkRequestQuery (q req) (vars req)) = inl body →
  url_Parse (endpoint (client r)) = None →
  ∃ hr rest,
    (Requester_Request r ctx req log).2 = log ++ EvDo hr :: rest
    ∧ calls rest = 0%nat
    ∧ hBody hr = body.
Proof.
  intros Hflag Hfiles Henc Hurl. rewrite Request_json by done.
  destruct (json_outbound r ctx req) as [hr|e] eqn:Hout.
  - exists hr. pose proof (json_outbound_body r ctx req hr Hout) as Hbody.
    rewrite Henc in Hbody. injection Hbody as <-.
    rewrite (requestJSON_sent _ _ _ hr) by done.
    destruct (httpClient (client r) hr log) as [httpRes|?]; [|by exists []].
    exists [EvClose httpRes].
    destruct (io_ReadAll _) as [? [?|]]; [done|].
    by destruct (json_Unmarshal _ _) as [response [?|]].
  - unfold json_outbound, NewRequestWithContext in Hout.
    by rewrite Henc, Hurl in Hout.
Qed.

(** C5. A request whose variables are the nil map, as [NewRequest] makes
    it, and that is then changed by anything but [Var], still has the nil
    map, and the JSON strategy writes [null] for it: the body is the query
    under "query", then ["variables":null], then a newline; it is not the
    body with ["variables":{}]; it is the body of the request the strategy
    builds; and when the request has no files and the endpoint parses, a
    call of [Request] hands the transport one request, with that body. *)
Theorem no_variables_encode_null req0 ops :
  vars req0 = None →
  Forall (λ o, is_OpVar o = false) ops →
  let req := foldl apply_op req0 ops in
  Encode_requestQuery (mkRequestQuery (q req) (vars req))
    = inl (dq "{'query':" +:+ encodeString (q req0) +:+ dq ",'variables':null}" +:+ newline)
  ∧ Encode_requestQuery (mkRequestQuery (q req) (vars req))
    ≠ inl (dq "{'query':" +:+ encodeString (q req0) +:+ dq ",'variables':{}}" +:+ newline)
  ∧ (∀ r ctx hr,
      json_outbound r ctx req = inl hr →
      hBody hr
      = dq "{'query':" +:+ encodeString (q req0) +:+ dq ",'variables':null}" +:+ newline)
  ∧ (∀ r ctx log,
      useMultipartForm (client r) = false →
      files req = [] →
      url_Parse (endpoint (client r)) = None →
      ∃ hr rest,
        (Requester_Request r ctx req log).2 = log ++ EvDo hr :: rest
        ∧ calls rest = 0%nat
        ∧ hBody hr
          = dq "{'query':" +:+ encodeString (q req0) +:+ dq ",'variables':null}"
            +:+ newline).
Proof.
  intros Hnil Hops req.
  assert (Henc : Encode_requestQuery (mkRequestQuery (q req) (vars req))
    = inl (dq "{'query':" +:+ encodeString (q req0) +:+ dq ",'variables':null}" +:+ newline)).
  { unfold req. rewrite apply_ops_query, apply_ops_vars_nil by done. reflexivity. }
  split_and!.
  - exact Henc.
  - rewrite Henc. intros [= Heq].
    repeat apply (inj (String.app _)) in Heq. cbv in Heq. discriminate Heq.
  - intros r ctx hr Hout. apply json_outbound_body in Hout.
    rewrite Henc in Hout. by injection Hout.
  - intros r ctx log Hflag Hfiles Hurl. by apply JSON_request_sent.
Qed.

(** C7, amended. A request with the query "query {}" and the one variable
    username = "testUser" is written by the JSON strategy as
    [{"query":"query {}","variables":{"username":"testUser"}}] followed by
    a newline; that is the body of the request the strategy builds, and when
    the request has no files and the endpoint parses, a call of [Request]
    hands the transport one request, with that body. *)
Theorem one_variable_body req :
  q req = "query {}" →
  vars req = Some {[ "username" := VString "testUser" ]} →
  Encode_requestQuery (mkRequestQuery (q req) (vars req))
    = inl (dq "{'query':'query {}','variables':{'username':'testUser'}}"
           +:+ newline)
  ∧ (∀ r ctx hr,
      json_outbound r ctx req = inl hr →
      hBody hr = dq "{'query':'query {}','variables':{'username':'testUser'}}"
                 +:+ newline)
  ∧ (∀ r ctx log,
      useMultipartForm (client r) = false →
      files req = [] →
      url_Parse (endpoint (client r)) = None →
      ∃ hr rest,
        (Requester_Request r ctx req log).2 = log ++ EvDo hr :: rest
        ∧ calls rest = 0%nat
        ∧ hBody hr = dq "{'query':'query {}','variables':{'username':'testUser'}}"
                     +:+ newline).
Proof.
  intros Hq Hvars.
  assert (Henc : Encode_requestQuery (mkRequestQuery (q req) (vars req))
    = inl (dq "{'query':'query {}','variables':{'username':'testUser'}}"
           +:+ newline)).
  { rewrite Hq, Hvars. vm_compute. reflexivity. }
  split_and!; [exact Henc| |].
  - intros r ctx hr Hout. apply json_outbound_body in Hout.
    rewrite Henc in Hout. by injection Hout.
  - intros r ctx log Hflag Hfiles Hurl. by apply JSON_request_sent.
Qed.

Lemma setRequestHeaders_values r httpReq req contentType k :
  hHeader httpReq = ∅ →
  default [] (hHeader (setRequestHeaders r httpReq req contentType) !! k)
  = computed_values contentType k ++ copied_values (range_Header (Header req)) k.
Proof.
  intros Hempty. unfold setRequestHeaders. cbn. rewrite Hempty.
  by rewrite add_entries, computed_headers.
Qed.

(** The request of either strategy has the header [setRequestHeaders]
    makes from an empty one, for the content type of the strategy. *)
Lemma outbound_header r ctx req hr :
  outbound r ctx req = inl hr →
  ∃ httpReq contentType,
    hHeader httpReq = ∅
    ∧ hHeader hr = hHeader (setRequestHeaders r httpReq req contentType)
    ∧ (if useMultipartForm (client r)
       then ∃ writer, multipart_form req = inl writer
                      ∧ contentType = FormDataContentType writer
       else contentType = "application/json; charset=utf-8").
Proof.
  unfold outbound, multipart_outbound, json_outbound, NewRequestWithContext.
  intros Hout. destruct (useMultipartForm (client r)).
  - destruct (multipart_form req) as [writer|]; [|discriminate].
    destruct (url_Parse _); [discriminate|]. injection Hout as <-.
    eexists _, _. split_and!; [|reflexivity|by eexists]. done.
  - destruct (Encode_requestQuery _) as [request|]; [|discriminate].
    destruct (url_Parse _); [discriminate|]. injection Hout as <-.
    eexists _, _. split_and!; [|reflexivity|reflexivity]. done.
Qed.

(** C6. The request either strategy hands to the transport has, for the
    content type [contentType] of the strategy (the JSON one, or the one
    of the multipart writer): under every key, first the computed values
    (the content type under "Content-Type", the accepted type under
    "Accept"), then the values of the request whose key has that canonical
    form, in the order [range] visits them.  So the computed values come
    first and are never replaced, every entry of the request shows up whole
    and unchanged under the canonical form of its key, and an entry of the
    request for "Content-Type" adds its values after the computed one.  The
    keys of a request made by [NewRequest], [Set] and [Add] are canonical, so
    its entries show up under their own keys. *)
Theorem outbound_headers_merged r ctx req hr :
  outbound r ctx req = inl hr →
  ∃ contentType,
    (if useMultipartForm (client r)
     then ∃ writer, multipart_form req = inl writer
                    ∧ contentType = FormDataContentType writer
     else contentType = "application/json; charset=utf-8")
    ∧ (∀ key, default [] (hHeader hr !! key)
              = computed_values contentType key
                ++ copied_values (range_Header (Header req)) key)
    ∧ (∃ more, hHeader hr !! "Content-Type" = Some (contentType :: more))
    ∧ (∃ more, hHeader hr !! "Accept"
               = Some ("application/json; charset=utf-8" :: more))
    ∧ (∀ key values,
         Header req !! key = Some values →
         ∃ before after,
           Header_Values (hHeader hr) key
           = computed_values contentType (CanonicalMIMEHeaderKey key)
             ++ before ++ values ++ after)
    ∧ (∀ key values,
         Header req !! key = Some values →
         CanonicalMIMEHeaderKey key = "Content-Type" →
         ∃ before after,
           hHeader hr !! "Content-Type"
           = Some (contentType :: before ++ values ++ after))
    ∧ (∀ q0 ops key values,
         req = build q0 ops →
         Header req !! key = Some values →
         ∃ before after,
           default [] (hHeader hr !! key)
           = computed_values contentType key ++ before ++ values ++ after).
Proof.
  intros (httpReq & contentType & Hempty & Hhdr & Hct)%outbound_header.
  exists contentType.
  assert (Hall : ∀ key, default [] (hHeader hr !! key)
              = computed_values contentType key
                ++ copied_values (range_Header (Header req)) key).
  { intros key. rewrite Hhdr. by apply setRequestHeaders_values. }
  assert (Hentry : ∀ key values,
         Header req !! key = Some values →
         ∃ before after,
           Header_Values (hHeader hr) key
           = computed_values contentType (CanonicalMIMEHeaderKey key)
             ++ before ++ values ++ after).
  { intros key values Hkey. unfold Header_Values. rewrite Hall.
    destruct (copied_values_entry (range_Header (Header req)) key values)
      as (before & after & ->); [|by eauto].
    rewrite range_Header_perm. by apply elem_of_map_to_list. }
  split_and!; [done|done| | |done| |].
  - specialize (Hall "Content-Type"). cbn in Hall.
    destruct (hHeader hr !! "Content-Type") as [vs|]; [|discriminate Hall].
    cbn in Hall. subst vs. by eexists.
  - specialize (Hall "Accept"). cbn in Hall.
    destruct (hHeader hr !! "Accept") as [vs|]; [|discriminate Hall].
    cbn in Hall. subst vs. by eexists.
  - intros key values Hkey Hcanon.
    destruct (Hentry key values Hkey) as (before & after & Hvals).
    unfold Header_Values in Hvals. rewrite Hcanon in Hvals. cbn in Hvals.
    destruct (hHeader hr !! "Content-Type") as [vs|]; [|discriminate Hvals].
    cbn in Hvals. subst vs. by eexists _, _.
  - intros q0 ops key values -> Hkey.
    destruct (Hentry key values Hkey) as (before & after & Hvals).
    unfold Header_Values in Hvals.
    rewrite (build_canonical_keys q0 ops key values Hkey) in Hvals. eauto.
Qed.

(** A strategy that fails before it has a request returns the zero
    response and that error, and leaves the log as it was. *)
Lemma requestJSON_unsent r ctx req e log :
  json_outbound r ctx req = inr e →
  requestJSON r ctx req log = ((zero_Response, Some e), log).
Proof.
  unfold json_outbound, requestJSON. intros Hout.
  destruct (Encode_requestQuery _) as [request|].
  - destruct (NewRequestWithContext _ _ _ _) as [httpReq|]; [discriminate|].
    by injection Hout as <-.
  - by injection Hout as <-.
Qed.

Lemma requestMultipart_unsent r ctx req e log :
  multipart_outbound r ctx req = inr e →
  requestMultipart r ctx req log = ((zero_Response, Some e), log).
Proof.
  unfold multipart_outbound, multipart_form, requestMultipart. intros Hout.
  destruct (WriteField _ _ _) as [w1 [?|]]; [by injection Hout as <-|].
  destruct (if bool_decide _ then _ else _) as [w2 [?|]]; [by injection Hout as <-|].
  destruct (write_files _ _) as [w3 [?|]]; [by injection Hout as <-|].
  destruct (Writer_Close _) as [w4 [?|]]; [by injection Hout as <-|].
  destruct (NewRequestWithContext _ _ _ _) as [httpReq|]; [discriminate|].
  by injection Hout as <-.
Qed.






End Properties.

(** * The properties on the examples *)

(** The tests of the package, on the model: a decoded body, an error entry
    with its extension, a variable in the body sent, a status 500 with a
    body that is not JSON. *)
Example test_response_with_data :
  let run := Requester_Request (test_requester (answering 200 (mkReader body_yes None)) false)
               test_ctx (mkRequest "query {}" None [] ∅) [] in
  run.1 = (mkResponse (mkTestData "yes") [], None) ∧ calls run.2 = 1%nat.
Proof. vm_compute. done. Qed.

Example test_error_with_extension :
  let run := Requester_Request
               (test_requester (answering 200 (mkReader body_extension_error None)) false)
               test_ctx (mkRequest "query {}" None [] ∅) [] in
  run.1.2 = None
  ∧ (GetExtensions <$> Errors run.1.1) = [mkTestErrorExtension "extension error" 400]
  ∧ calls run.2 = 1%nat.
Proof. vm_compute. done. Qed.

Example test_query_with_variables :
  let run := Requester_Request (test_requester (answering 200 (mkReader body_yes None)) false)
               test_ctx username_request [] in
  run.1.2 = None
  ∧ (∃ hr res,
       run.2 = [EvDo hr; EvClose res]
       ∧ hBody hr = dq "{'query':'query {}','variables':{'username':'testUser'}}" +:+ newline).
Proof. split; [reflexivity|]. eexists _, _. split; [reflexivity|]. vm_compute. done. Qed.

Example test_status_500 :
  let run := Requester_Request (test_requester (answering 500 plain_text_body) false)
               test_ctx (NewRequest "query {}") [] in
  Error <$> run.1.2 = Some "graphql: server returned a non-200 status code: 500"
  ∧ calls run.2 = 1%nat.
Proof. vm_compute. done. Qed.

Lemma Request_files_without_multipart_witness :
  (0 < length (files upload_request))%nat
  ∧ Requester_Request (test_requester refusing false) test_ctx upload_request []
    = ((zero_Response, Some ErrInvalidInput), []).
Proof.
  split; [cbn; lia|].
  apply (Request_files_without_multipart (test_requester refusing false));
    [cbn; lia|reflexivity].
Defined.

Lemma Request_strategy_by_flag_witness :
  files (NewRequest "query {}") = []
  ∧ Requester_Request (test_requester refusing true) test_ctx (NewRequest "query {}")
    = requestMultipart (test_requester refusing true) test_ctx (NewRequest "query {}").
Proof.
  split; [reflexivity|].
  apply (Request_strategy_by_flag (test_requester refusing true) test_ctx
           (NewRequest "query {}")).
  intros _. reflexivity.
Defined.

Lemma requestJSON_read_failure_witness :
  ∃ hr,
    json_outbound (test_requester (answering 500 broken_body) false) test_ctx
                  (NewRequest "query {}") = inl hr
    ∧ Requester_Request (test_requester (answering 500 broken_body) false) test_ctx
                        (NewRequest "query {}") []
      = ((zero_Response, Some (withMessage (errorString "unexpected EOF") "read body")),
         [EvDo hr; EvClose (mkHttpResponse 500 broken_body)]).
Proof.
  eexists. split; [reflexivity|].
  eapply (requestJSON_read_failure
            (test_requester (answering 500 broken_body) false) test_ctx
            (NewRequest "query {}") []); reflexivity.
Defined.

Lemma requestJSON_decode_failure_witness :
  ∃ e,
    (Requester_Request (test_requester (answering 500 plain_text_body) false) test_ctx
                       (NewRequest "query {}") []).1.2 = Some e
    ∧ Error e = "graphql: server returned a non-200 status code: 500".
Proof.
  eapply (requestJSON_decode_failure
            (test_requester (answering 500 plain_text_body) false) test_ctx
            (NewRequest "query {}") []); reflexivity.
Defined.

Lemma requestMultipart_body_failures_witness :
  ∃ hr,
    multipart_outbound (test_requester (answering 500 plain_text_body) true) test_ctx
                       upload_request = inl hr
    ∧ Requester_Request (test_requester (answering 500 plain_text_body) true) test_ctx
                        upload_request []
      = ((zero_Response,
          Some (withMessage
                  (errorString "invalid character 'I' looking for beginning of value")
                  "decode")),
         [EvDo hr; EvClose (mkHttpResponse 500 plain_text_body)]).
Proof.
  eexists. split; [reflexivity|].
  eapply (requestMultipart_body_failures
            (test_requester (answering 500 plain_text_body) true) test_ctx
            upload_request []); reflexivity.
Defined.

Lemma Request_decoded_is_success_witness :
  ∃ hr,
    outbound (test_requester (answering 500 (mkReader body_extension_error None)) true)
             test_ctx upload_request = inl hr
    ∧ Requester_Request
        (test_requester (answering 500 (mkReader body_extension_error None)) true)
        test_ctx upload_request []
      = ((mkResponse (mkTestData "")
            [mkGraphError "bad request" (mkTestErrorExtension "extension error" 400)],
          None),
         [EvDo hr; EvClose (mkHttpResponse 500 (mkReader body_extension_error None))]).
Proof.
  eexists. split; [reflexivity|].
  eapply (Request_decoded_is_success
            (test_requester (answering 500 (mkReader body_extension_error None)) true)
            test_ctx upload_request []); [intros _|..]; reflexivity.
Defined.

Lemma no_variables_encode_null_witness :
  ∃ hr rest,
    (Requester_Request (test_requester refusing false) test_ctx
       (foldl apply_op (NewRequest "query {}")
          [OpHeaderSet "Authorization" "Bearer token"]) []).2
    = [] ++ EvDo hr :: rest
    ∧ calls rest = 0%nat
    ∧ hBody hr = dq "{'query':" +:+ encodeString "query {}"
                 +:+ dq ",'variables':null}" +:+ newline.
Proof.
  destruct (no_variables_encode_null (T:=testData) (E:=testErrorExtension)
              (NewRequest "query {}") [OpHeaderSet "Authorization" "Bearer token"])
    as (_ & _ & _ & Hsent).
  - reflexivity.
  - repeat constructor.
  - apply (Hsent (test_requester refusing false) test_ctx []); reflexivity.
Defined.

Lemma one_variable_body_witness :
  ∃ hr rest,
    (Requester_Request (test_requester refusing false) test_ctx username_request []).2
    = [] ++ EvDo hr :: rest
    ∧ calls rest = 0%nat
    ∧ hBody hr = dq "{'query':'query {}','variables':{'username':'testUser'}}"
                 +:+ newline.
Proof.
  destruct (one_variable_body (T:=testData) (E:=testErrorExtension) username_request)
    as (_ & _ & Hsent); [reflexivity..|].
  apply (Hsent (test_requester refusing false) test_ctx []); reflexivity.
Defined.

(** C7, as it is worded, fails on the request of the tests: the body the
    JSON strategy writes is not the document alone, it ends in a newline. *)
Lemma one_variable_body_not_bare :
  q username_request = "query {}"
  ∧ vars username_request = Some {[ "username" := VString "testUser" ]}
  ∧ Encode_requestQuery (mkRequestQuery (q username_request) (vars username_request))
    ≠ inl (dq "{'query':'query {}','variables':{'username':'testUser'}}")
  ∧ ∃ hr,
      json_outbound (test_requester refusing false) test_ctx username_request = inl hr
      ∧ hBody hr ≠ dq "{'query':'query {}','variables':{'username':'testUser'}}".
Proof.
  split_and!; [reflexivity|reflexivity|vm_compute; discriminate|].
  eexists. split; [reflexivity|]. vm_compute. discriminate.
Qed.

Lemma outbound_headers_merged_witness :
  ∃ hr,
    outbound (test_requester refusing false) test_ctx
      (build "query {}" [OpHeaderSet "Authorization" "Bearer token";
                         OpHeaderAdd "content-type" "text/plain"]) = inl hr
    ∧ ∃ more, hHeader hr !! "Content-Type"
              = Some ("application/json; charset=utf-8" :: more).
Proof.
  eexists. split; [reflexivity|].
  edestruct (outbound_headers_merged (test_requester refusing false) test_ctx
            (build "query {}" [OpHeaderSet "Authorization" "Bearer token";
                               OpHeaderAdd "content-type" "text/plain"]))
    as (contentType & Hct & _ & Hfirst & _); [reflexivity|].
  cbn in Hct. subst contentType. exact Hfirst.
Defined.

(** The headers of that request, in full. *)
Example outbound_headers_example :
  ∃ hr,
    outbound (test_requester refusing false) test_ctx
      (build "query {}" [OpHeaderSet "Authorization" "Bearer token";
                         OpHeaderAdd "content-type" "text/plain"]) = inl hr
    ∧ hHeader hr !! "Content-Type"
      = Some ["application/json; charset=utf-8"; "text/plain"]
    ∧ hHeader hr !! "Accept" = Some ["application/json; charset=utf-8"]
    ∧ hHeader hr !! "Authorization" = Some ["Bearer token"]
    ∧ Header_Get (hHeader hr) "authorization" = "Bearer token".
Proof.
  eexists. split; [reflexivity|]. split_and!; vm_compute; reflexivity.
Qed.


(** * More of the code *)

(** ** The request builder *)

Lemma apply_ops_files req ops :
  files (foldl apply_op req ops) = files req ++ omap file_of ops.
Proof.
  revert req. induction ops as [|o ops IH]; intros req; cbn.
  - by rewrite app_nil_r.
  - rewrite IH. destruct o; cbn; [done| |done|done].
    by rewrite <- app_assoc.
Qed.

Lemma vars_map_Var req key v : vars_map (Var req key v) = <[key := v]> (vars_map req).
Proof. unfold vars_map, Var. cbn. by destruct (vars req). Qed.

Lemma last_cons_default {A} (x : A) l : last (x :: l) = Some (default x (last l)).
Proof.
  revert x. induction l as [|y l IH]; intros x; [done|].
  change (last (x :: y :: l)) with (last (y :: l)). rewrite IH. cbn.
  by destruct (last l).
Qed.

(** X1. [Var] sets one variable and nothing else: the variable reads back,
    the other variables are as before (a nil map read as empty), the map is
    not nil and not empty afterwards, and the query, the files and the
    header are untouched. *)
Theorem Var_sets_one_variable req key v :
  vars_map (Var req key v) !! key = Some v
  ∧ (∀ key', key' ≠ key → vars_map (Var req key v) !! key' = vars_map req !! key')
  ∧ vars (Var req key v) ≠ None
  ∧ (0 < len_vars (vars (Var req key v)))%nat
  ∧ q (Var req key v) = q req
  ∧ files (Var req key v) = files req
  ∧ Header (Var req key v) = Header req.
Proof.
  rewrite vars_map_Var. split_and!; try done.
  - apply lookup_insert_eq.
  - intros key' Hne. by apply lookup_insert_ne.
  - cbn. apply Nat.neq_0_lt_0. intros Hsize%map_size_empty_inv.
    by apply insert_non_empty in Hsize.
Qed.

(** X2. Two calls of [Var] on one key leave what the later call alone
    leaves, and calls of [Var] on different keys can be swapped: the request
    is the same, and so is everything done with it. *)
Theorem Var_last_wins_and_commutes req key1 v1 key2 v2 :
  Var (Var req key1 v1) key1 v2 = Var req key1 v2
  ∧ (key1 ≠ key2 →
     Var (Var req key1 v1) key2 v2 = Var (Var req key2 v2) key1 v1).
Proof.
  unfold Var. cbn. split.
  - by rewrite insert_insert_eq.
  - intros Hne. by rewrite insert_insert_ne.
Qed.

(** X3. The files of a request made by [NewRequest] and any calls are the
    files of the calls of [File], in the order of the calls, and the query
    is the one given to [NewRequest]: no call changes it. *)
Theorem build_files_in_call_order q0 ops :
  files (build q0 ops) = omap file_of ops
  ∧ q (build q0 ops) = q0.
Proof.
  unfold build. by rewrite apply_ops_files, apply_ops_query.
Qed.

(** X4. After any calls, a variable has the value of the last call of [Var]
    on its key, and the value it had before when there is no such call. *)
Theorem variable_is_last_Var req ops key :
  vars_map (foldl apply_op req ops) !! key
  = match last (omap (var_of key) ops) with
    | Some v => Some v
    | None => vars_map req !! key
    end.
Proof.
  revert req. induction ops as [|o ops IH]; intros req; [done|].
  cbn [foldl]. rewrite IH.
  destruct o as [key' v| | |]; cbn [omap list_omap var_of apply_op]; try done.
  - destruct (decide (key' = key)) as [->|Hne].
    + rewrite last_cons_default, vars_map_Var, lookup_insert_eq.
      by destruct (last _).
    + by rewrite vars_map_Var, lookup_insert_ne.
Qed.

(** ** errors.go *)

(** X6. [NewError] of a nil error is nil.  [NewError] of an error is an
    error whose text is the message of the category, a colon and the text
    of the cause, whose cause is the cause of what it wraps, and which is
    not one of the eight category values: the category is in the text
    only. *)
Theorem NewError_wraps err wrappedErr :
  (err = None → NewError err wrappedErr = None)
  ∧ (∀ cause, err = Some cause →
       ∃ e, NewError err wrappedErr = Some e
            ∧ Error e = Error wrappedErr +:+ ": " +:+ Error cause
            ∧ Cause e = Cause cause
            ∧ e ∉ named_categories).
Proof.
  split; [by intros ->|].
  intros cause ->. eexists. split_and!; [reflexivity..|].
  unfold named_categories. set_unfold. intros Hin.
  repeat (destruct Hin as [Hin|Hin]; [discriminate Hin|]). done.
Qed.

(** X7. The text of an error wrapped by [NewError] under one of the eight
    categories tells the category: two such errors with the same text have
    the same category, and their causes have the same text. *)
Theorem category_read_off_text cat1 cat2 cause1 cause2 e1 e2 :
  cat1 ∈ named_categories →
  cat2 ∈ named_categories →
  NewError (Some cause1) cat1 = Some e1 →
  NewError (Some cause2) cat2 = Some e2 →
  Error e1 = Error e2 →
  cat1 = cat2 ∧ Error cause1 = Error cause2.
Proof.
  intros Hcat1 Hcat2 [= <-] [= <-]. cbn [Error].
  generalize (Error cause1), (Error cause2). intros t1 t2.
  unfold named_categories in *. set_unfold.
  repeat (destruct Hcat1 as [->|Hcat1]); try done;
    repeat (destruct Hcat2 as [->|Hcat2]); try done;
    intros Heq; cbv in Heq; by simplify_eq.
Qed.

Lemma category_read_off_text_witness :
  ErrCopy = ErrCopy ∧ Error (errorString "unexpected EOF") = Error (fundamental "unexpected EOF").
Proof.
  apply (category_read_off_text ErrCopy ErrCopy
           (errorString "unexpected EOF") (fundamental "unexpected EOF")
           (withMessage (errorString "unexpected EOF") "copy")
           (withMessage (fundamental "unexpected EOF") "copy"));
    try reflexivity; unfold named_categories; set_solver.
Defined.

(** ** The client options *)

Lemma options_fold c0 os :
  let c := foldl (λ c optionFunc, optionFunc c) c0 (option_of <$> os) in
  f_endpoint c = f_endpoint c0
  ∧ f_useMultipartForm c = f_useMultipartForm c0 || existsb is_OUseMultipartForm os
  ∧ f_closeReq c = f_closeReq c0 || existsb is_OImmediatelyCloseReqBody os
  ∧ f_httpClient c
    = match last (omap transport_of os) with
      | Some d => Some d
      | None => f_httpClient c0
      end.
Proof.
  revert c0. induction os as [|o os IH]; intros c0.
  - cbn. by rewrite !orb_false_r.
  - cbn [fmap list_fmap foldl]. destruct (IH (option_of o c0)) as (-> & -> & -> & ->).
    destruct o; cbn; rewrite ?orb_true_r, ?last_cons_default; split_and!; try done.
    by destruct (last _).
Qed.

(** X8. The client [NewClient] makes from the options of the package: the
    endpoint is the one given; the multipart flag and the close flag are on
    exactly when their option is among the options, wherever it stands; the
    transport is the one of the last [WithHTTPClient], and the default
    client when there is none. *)
Theorem NewClient_options DefaultClient url os :
  let c := NewClient DefaultClient url (option_of <$> os) in
  endpoint c = url
  ∧ useMultipartForm c = existsb is_OUseMultipartForm os
  ∧ closeReq c = existsb is_OImmediatelyCloseReqBody os
  ∧ httpClient c = default DefaultClient (last (omap transport_of os)).
Proof.
  unfold NewClient. cbn.
  destruct (options_fold (mkClientFields None url false false) os)
    as (-> & -> & -> & ->).
  cbn. split_and!; try done. by destruct (last _).
Qed.

(** ** What the JSON encoder accepts *)

Lemma encode_entries_inl first kvs :
  Forall (λ kv, encodable kv.2 = true) kvs → ∃ b, encode_entries first kvs = inl b.
Proof.
  intros Hall. revert first. induction Hall as [|[k v] kvs Hv _ IH]; intros first.
  - by eexists.
  - cbn. destruct (IH false) as [er ->].
    destruct v; cbn in *; try discriminate; by eexists.
Qed.

Lemma encode_entries_inl_inv first kvs b :
  encode_entries first kvs = inl b → Forall (λ kv, encodable kv.2 = true) kvs.
Proof.
  revert first b. induction kvs as [|[k v] kvs IH]; intros first b Henc; [done|].
  cbn in Henc. destruct (encode_value v) as [ev|] eqn:Hv; [|discriminate].
  destruct (encode_entries false kvs) as [er|] eqn:Hrest; [|discriminate].
  constructor; [|by eapply IH]. by destruct v.
Qed.

Lemma entries_encodable (m : gmap string value) :
  Forall (λ kv, encodable kv.2 = true) (sorted_entries m)
  ↔ map_Forall (λ _ v, encodable v = true) m.
Proof.
  unfold sorted_entries. rewrite merge_sort_Permutation, map_Forall_to_list.
  apply Forall_proper; [|done]. by intros [k v].
Qed.

(** The encoder writes the variables exactly when each value is one it
    encodes. *)
Lemma encode_vars_inl vars :
  vars_encodable vars ↔ ∃ b, encode_vars vars = inl b.
Proof.
  unfold vars_encodable, encode_vars. destruct vars as [m|]; cbn.
  - rewrite <- entries_encodable. split.
    + intros [b ->]%(encode_entries_inl true). by eexists.
    + intros [b Hb].
      destruct (encode_entries true (sorted_entries m)) eqn:Henc; [|discriminate].
      by eapply encode_entries_inl_inv.
  - split; [by eexists|]. intros _. apply map_Forall_empty.
Qed.

(** ** The log of the transport *)

Lemma calls_app l1 l2 : calls (l1 ++ l2) = (calls l1 + calls l2)%nat.
Proof. unfold calls. by rewrite filter_app, length_app. Qed.

Lemma copied_values_nil (entries : list (string * list string)) key :
  copied_values entries key = []
  ↔ ∀ key' values,
      (key', values) ∈ entries → CanonicalMIMEHeaderKey key' = key → values = [].
Proof.
  unfold copied_values. induction entries as [|[k vs] entries IH].
  - split; [|done]. intros _ key' values Hin. by apply elem_of_nil in Hin.
  - rewrite filter_cons. cbn. destruct (decide _) as [Hk|Hk]; cbn.
    + split.
      * intros [-> Hrest]%app_eq_nil key' values [[= -> ->]|Hin]%elem_of_cons Hkey'.
        { done. }
        by eapply IH.
      * intros Hall. apply app_nil. split.
        { eapply Hall; [left|done]. }
        apply IH. intros key' values Hin. apply Hall. by right.
    + rewrite IH. split.
      * intros Hall key' values [[= -> ->]|Hin]%elem_of_cons Hkey'; [done|].
        by eapply Hall.
      * intros Hall key' values Hin. apply Hall. by right.
Qed.

(** A header with a canonical key and at least one value under every key:
    [Set] and [Add] keep it so. *)
Lemma Header_Add_filled h key v :
  canonical_keys h →
  (∀ k values, h !! k = Some values → values ≠ []) →
  canonical_keys (Header_Add h key v)
  ∧ (∀ k values, Header_Add h key v !! k = Some values → values ≠ []).
Proof.
  intros Hcanon Hfilled. split; [by apply canonical_keys_insert|].
  intros k values. unfold Header_Add.
  destruct (decide (CanonicalMIMEHeaderKey key = k)) as [<-|Hne].
  - rewrite lookup_insert_eq. intros [= <-]. by intros [_ [=]]%app_eq_nil.
  - rewrite lookup_insert_ne by done. apply Hfilled.
Qed.

Lemma add_entries_filled h (entries : list (string * list string)) :
  canonical_keys h →
  (∀ k values, h !! k = Some values → values ≠ []) →
  let h' := foldl (λ h kv, foldl (λ h v, Header_Add h kv.1 v) h kv.2) h entries in
  canonical_keys h' ∧ (∀ k values, h' !! k = Some values → values ≠ []).
Proof.
  revert h. induction entries as [|[key vs] entries IH]; intros h Hcanon Hfilled; [done|].
  cbn. apply IH; clear IH.
  all: revert h Hcanon Hfilled; induction vs as [|v vs IHvs]; intros h Hcanon Hfilled;
    [done|]; cbn; destruct (Header_Add_filled h key v Hcanon Hfilled); by apply IHvs.
Qed.

(** ** The dispatcher, the rest of it *)

Section MoreProperties.
Context {T E : Type} `{!Decoder T E, !Multipart, !Runtime}.
Implicit Types (r : Requester T E) (ctx : Context) (req : Request).
Implicit Types (log : list event) (hr : HttpRequest) (httpRes : HttpResponse).

Lemma no_files_without_flag r req :
  ((0 < length (files req))%nat → useMultipartForm (client r) = true) →
  useMultipartForm (client r) = false → files req = [].
Proof.
  intros Hpre Hflag. destruct (files req); [done|].
  cbn in Hpre. rewrite Hpre in Hflag by lia. discriminate.
Qed.

(** A call, by what its strategy builds and what the transport answers. *)
Lemma Request_by_outbound r ctx req log :
  ((0 < length (files req))%nat → useMultipartForm (client r) = true) →
  match outbound r ctx req with
  | inr e => Requester_Request r ctx req log = ((zero_Response, Some e), log)
  | inl hr =>
    match httpClient (client r) hr log with
    | inr e =>
      Requester_Request r ctx req log = ((zero_Response, Some e), log ++ [EvDo hr])
    | inl httpRes =>
      (Requester_Request r ctx req log).2 = log ++ [EvDo hr; EvClose httpRes]
    end
  end.
Proof.
  intros Hpre. unfold outbound.
  destruct (useMultipartForm (client r)) eqn:Hflag.
  - rewrite Request_multipart by done.
    destruct (multipart_outbound r ctx req) as [hr|e] eqn:Hout.
    + rewrite (requestMultipart_sent _ _ _ hr) by done.
      destruct (httpClient (client r) hr log) as [httpRes|e]; [|done].
      destruct (io_ReadAll _) as [body [?|]]; [done|].
      by destruct (json_Unmarshal _ _) as [response [?|]].
    + by apply requestMultipart_unsent.
  - rewrite Request_json by eauto using no_files_without_flag.
    destruct (json_outbound r ctx req) as [hr|e] eqn:Hout.
    + rewrite (requestJSON_sent _ _ _ hr) by done.
      destruct (httpClient (client r) hr log) as [httpRes|e]; [|done].
      destruct (io_ReadAll _) as [body [?|]]; [done|].
      by destruct (json_Unmarshal _ _) as [response [?|]].
    + by apply requestJSON_unsent.
Qed.

(** X9. A call hands at most one request to the transport, and adds to the
    log and changes nothing in it: nothing, or the request alone when the
    transport failed, or the request and the closing of the body of the
    response when the transport answered, whatever the call returns. *)
Theorem Request_at_most_one_call r ctx req log :
  let log' := (Requester_Request r ctx req log).2 in
  (log' = log
   ∨ (∃ hr e, httpClient (client r) hr log = inr e ∧ log' = log ++ [EvDo hr])
   ∨ (∃ hr httpRes,
        httpClient (client r) hr log = inl httpRes
        ∧ log' = log ++ [EvDo hr; EvClose httpRes]))
  ∧ (calls log' ≤ S (calls log))%nat.
Proof.
  cbn zeta.
  assert (Hshape : (Requester_Request r ctx req log).2 = log
   ∨ (∃ hr e, httpClient (client r) hr log = inr e
              ∧ (Requester_Request r ctx req log).2 = log ++ [EvDo hr])
   ∨ (∃ hr httpRes,
        httpClient (client r) hr log = inl httpRes
        ∧ (Requester_Request r ctx req log).2 = log ++ [EvDo hr; EvClose httpRes])).
  { destruct (decide ((0 < length (files req))%nat
                      ∧ useMultipartForm (client r) = false)) as [[Hfiles Hflag]|Hpre].
    - left. unfold Requester_Request.
      by rewrite Hflag, bool_decide_eq_true_2.
    - pose proof (Request_by_outbound r ctx req log) as Hrun.
      destruct (outbound r ctx req) as [hr|e].
      + destruct (httpClient (client r) hr log) as [httpRes|e] eqn:Hdo.
        * right; right. exists hr, httpRes. split; [done|]. apply Hrun.
          intros Hfiles. destruct (useMultipartForm (client r)); [done|].
          by destruct Hpre.
        * right; left. exists hr, e. split; [done|]. rewrite Hrun; [done|].
          intros Hfiles. destruct (useMultipartForm (client r)); [done|].
          by destruct Hpre.
      + left. rewrite Hrun; [done|].
        intros Hfiles. destruct (useMultipartForm (client r)); [done|].
        by destruct Hpre. }
  split; [exact Hshape|].
  destruct Hshape as [->|[(hr & e & _ & ->)|(hr & httpRes & _ & ->)]].
  - lia.
  - rewrite calls_app. change (calls [EvDo hr]) with 1%nat. lia.
  - rewrite calls_app. change (calls [EvDo hr; EvClose httpRes]) with 1%nat. lia.
Qed.

(** X10. When the transport fails, the call returns the zero response and
    the error of the transport as it is, in either strategy; the request is
    in the log and no body is closed, there being none. *)
Theorem Request_transport_failure r ctx req log hr e :
  ((0 < length (files req))%nat → useMultipartForm (client r) = true) →
  outbound r ctx req = inl hr →
  httpClient (client r) hr log = inr e →
  Requester_Request r ctx req log = ((zero_Response, Some e), log ++ [EvDo hr]).
Proof.
  intros Hpre Hout Hdo.
  pose proof (Request_by_outbound r ctx req log Hpre) as Hrun.
  by rewrite Hout, Hdo in Hrun.
Qed.

(** The fields of the request a strategy builds. *)
Lemma outbound_fields r ctx req hr :
  outbound r ctx req = inl hr →
  hMethod hr = "POST"
  ∧ hURL hr = endpoint (client r)
  ∧ url_Parse (endpoint (client r)) = None
  ∧ hCtx hr = ctx
  ∧ hClose hr = closeReq (client r)
  ∧ (if useMultipartForm (client r)
     then ∃ writer, multipart_form req = inl writer ∧ hBody hr = Bytes writer
     else Encode_requestQuery (mkRequestQuery (q req) (vars req)) = inl (hBody hr)).
Proof.
  unfold outbound, multipart_outbound, json_outbound, NewRequestWithContext.
  intros Hout. destruct (useMultipartForm (client r)).
  - destruct (multipart_form req) as [writer|]; [|discriminate].
    destruct (url_Parse _); [discriminate|]. injection Hout as <-.
    split_and!; try done. by eexists.
  - destruct (Encode_requestQuery _) as [request|]; [|discriminate].
    destruct (url_Parse _); [discriminate|]. by injection Hout as <-.
Qed.

(** X12. In the header of the request handed to the transport every key is
    in canonical form and has at least one value, and the only keys are
    "Content-Type", "Accept" and the canonical forms of the keys of the
    request that have a value: a key of the request with no value adds
    nothing. *)
Theorem outbound_header_keys r ctx req hr :
  outbound r ctx req = inl hr →
  canonical_keys (hHeader hr)
  ∧ (∀ key values, hHeader hr !! key = Some values → values ≠ [])
  ∧ (∀ key,
       hHeader hr !! key = None
       ↔ key ≠ "Content-Type" ∧ key ≠ "Accept"
         ∧ ∀ key' values,
             Header req !! key' = Some values →
             CanonicalMIMEHeaderKey key' = key → values = []).
Proof.
  intros (httpReq & contentType & Hempty & Hhdr & _)%outbound_header.
  assert (Hfilled : canonical_keys (hHeader hr)
                    ∧ (∀ key values, hHeader hr !! key = Some values → values ≠ [])).
  { rewrite Hhdr. unfold setRequestHeaders. cbn. rewrite Hempty.
    apply add_entries_filled.
    - unfold Header_Set. do 2 apply canonical_keys_insert. apply canonical_keys_empty.
    - intros k values. unfold Header_Set.
      change (CanonicalMIMEHeaderKey "Content-Type") with "Content-Type".
      change (CanonicalMIMEHeaderKey "Accept") with "Accept".
      destruct (decide (k = "Accept")) as [->|?].
      { rewrite lookup_insert_eq. by intros [= <-]. }
      rewrite lookup_insert_ne by done.
      destruct (decide (k = "Content-Type")) as [->|?].
      { rewrite lookup_insert_eq. by intros [= <-]. }
      by rewrite lookup_insert_ne, lookup_empty. }
  destruct Hfilled as [Hcanon Hfilled]. split_and!; [done|done|].
  intros key.
  pose proof (setRequestHeaders_values r httpReq req contentType key Hempty) as Hvals.
  rewrite <- Hhdr in Hvals.
  assert (Hnone : hHeader hr !! key = None ↔ default [] (hHeader hr !! key) = []).
  { destruct (hHeader hr !! key) as [values|] eqn:Hkey; cbn; [|done].
    split; [done|]. intros ->. by destruct (Hfilled key [] Hkey). }
  rewrite Hnone, Hvals, app_nil, copied_values_nil. unfold computed_values.
  split.
  - intros [Hcomputed Hcopied]. split_and!.
    + intros ->. by rewrite decide_True in Hcomputed.
    + intros ->. by rewrite decide_False, decide_True in Hcomputed.
    + intros key' values Hkey'. apply Hcopied.
      rewrite range_Header_perm. by apply elem_of_map_to_list.
  - intros (Hct & Hacc & Hcopied). split.
    + by rewrite !decide_False.
    + intros key' values Hin. apply Hcopied.
      rewrite range_Header_perm in Hin. by apply elem_of_map_to_list.
Qed.


(** The multipart strategy up to the files: the error it returns there, if
    any. *)
Lemma requestMultipart_before_files r ctx req log w1 w2 e :
  WriteField NewWriter "query" (Query_String (q req)) = (w1, None) →
  (if bool_decide (0 < len_vars (vars req))%nat
   then write_variables w1 req else (w1, None)) = (w2, Some e) →
  requestMultipart r ctx req log = ((zero_Response, Some e), log).
Proof.
  intros Hfield Hvars. unfold requestMultipart. by rewrite Hfield, Hvars.
Qed.

Lemma requestMultipart_in_files r ctx req log w1 w2 w3 e :
  WriteField NewWriter "query" (Query_String (q req)) = (w1, None) →
  (if bool_decide (0 < len_vars (vars req))%nat
   then write_variables w1 req else (w1, None)) = (w2, None) →
  write_files w2 (files req) = (w3, Some e) →
  requestMultipart r ctx req log = ((zero_Response, Some e), log).
Proof.
  intros Hfield Hvars Hfiles. unfold requestMultipart.
  by rewrite Hfield, Hvars, Hfiles.
Qed.

(** X14. In the multipart strategy with at least one variable, once the
    query field is written: when the field for the variables cannot be
    made, the call returns that error wrapped as [ErrCreateVariablesField];
    when the variables do not encode, or cannot be written to the field, it
    returns that error wrapped as [ErrEncodeVariablesField]; the transport
    is not called. *)
Theorem multipart_variables_failures r ctx req log w1 :
  useMultipartForm (client r) = true →
  (0 < len_vars (vars req))%nat →
  WriteField NewWriter "query" (Query_String (q req)) = (w1, None) →
  (∀ w2 e,
     CreateFormField w1 "variables" = (w2, Some e) →
     Requester_Request r ctx req log
     = ((zero_Response, NewError (Some e) ErrCreateVariablesField), log))
  ∧ (∀ w2 e,
     CreateFormField w1 "variables" = (w2, None) →
     encode_vars (vars req) = inr e →
     Requester_Request r ctx req log
     = ((zero_Response, NewError (Some e) ErrEncodeVariablesField), log))
  ∧ (∀ w2 b w3 e,
     CreateFormField w1 "variables" = (w2, None) →
     encode_vars (vars req) = inl b →
     part_Write w2 (b +:+ newline) = (w3, Some e) →
     Requester_Request r ctx req log
     = ((zero_Response, NewError (Some e) ErrEncodeVariablesField), log)).
Proof.
  intros Hflag Hlen Hfield. rewrite Request_multipart by done.
  split_and!.
  - intros w2 e Hcreate. eapply requestMultipart_before_files; [done|].
    rewrite bool_decide_eq_true_2 by done. unfold write_variables.
    by rewrite Hcreate.
  - intros w2 e Hcreate Henc. eapply requestMultipart_before_files; [done|].
    rewrite bool_decide_eq_true_2 by done. unfold write_variables.
    by rewrite Hcreate, Henc.
  - intros w2 b w3 e Hcreate Henc Hwrite.
    eapply requestMultipart_before_files; [done|].
    rewrite bool_decide_eq_true_2 by done. unfold write_variables.
    by rewrite Hcreate, Henc, Hwrite.
Qed.

Lemma write_files_app writer pre post :
  write_files writer (pre ++ post)
  = match write_files writer pre with
    | (w, None) => write_files w post
    | (w, Some e) => (w, Some e)
    end.
Proof.
  revert writer. induction pre as [|f pre IH]; intros writer; [done|].
  cbn. destruct (CreateFormFile _ _ _) as [part [?|]]; [done|].
  destruct (io_Copy _ _) as [w [?|]]; [done|]. apply IH.
Qed.

(** X15. In the multipart strategy, once the fields for the query and the
    variables and the files before a file [f] are written: when the part
    for [f] cannot be made, the call returns that error wrapped as
    [ErrCreateFile]; when the part is made and the copy of [f] fails, it
    returns that error wrapped as [ErrCopy]; the files after [f] are not
    looked at and the transport is not called. *)
Theorem multipart_file_failures r ctx req log w1 w2 w3 pre f post :
  useMultipartForm (client r) = true →
  WriteField NewWriter "query" (Query_String (q req)) = (w1, None) →
  (if bool_decide (0 < len_vars (vars req))%nat
   then write_variables w1 req else (w1, None)) = (w2, None) →
  files req = pre ++ f :: post →
  write_files w2 pre = (w3, None) →
  (∀ w4 e,
     CreateFormFile w3 (Field f) (Name f) = (w4, Some e) →
     Requester_Request r ctx req log
     = ((zero_Response, NewError (Some e) ErrCreateFile), log))
  ∧ (∀ part w5 e,
     CreateFormFile w3 (Field f) (Name f) = (part, None) →
     io_Copy part (R f) = (w5, Some e) →
     Requester_Request r ctx req log
     = ((zero_Response, NewError (Some e) ErrCopy), log)).
Proof.
  intros Hflag Hfield Hvars Hfiles Hpre. rewrite Request_multipart by done.
  split.
  - intros w4 e Hcreate. eapply requestMultipart_in_files; [done..|].
    rewrite Hfiles, write_files_app, Hpre. cbn. by rewrite Hcreate.
  - intros part w5 e Hcreate Hcopy. eapply requestMultipart_in_files; [done..|].
    rewrite Hfiles, write_files_app, Hpre. cbn. by rewrite Hcreate, Hcopy.
Qed.

(** With a writer that does not fail, the fields and the files are
    written whenever the variables encode and the readers read to their
    end. *)
Lemma reliable_write_variables writer req :
  reliable_writer →
  vars_encodable (vars req) →
  ∃ w, write_variables writer req = (w, None).
Proof.
  intros (_ & Hcreate & _ & Hwrite & _) [b Hb]%encode_vars_inl.
  unfold write_variables. specialize (Hcreate writer "variables").
  destruct (CreateFormField _ _) as [w1 [?|]]; [discriminate|].
  rewrite Hb. specialize (Hwrite w1 (b +:+ newline)).
  destruct (part_Write _ _) as [w2 [?|]]; [discriminate|]. by eexists.
Qed.

Lemma unreliable_write_variables writer req :
  reliable_writer →
  ¬ vars_encodable (vars req) →
  ∃ w e, write_variables writer req = (w, Some e).
Proof.
  intros (_ & Hcreate & _) Hnot. unfold write_variables.
  specialize (Hcreate writer "variables").
  destruct (CreateFormField _ _) as [w1 [?|]]; [discriminate|].
  destruct (encode_vars (vars req)) as [b|e] eqn:Henc; [|by eexists _, _].
  destruct Hnot. apply encode_vars_inl. by eexists.
Qed.

Lemma reliable_write_files writer fs :
  reliable_writer →
  Forall reads_to_end fs →
  ∃ w, write_files writer fs = (w, None).
Proof.
  intros (_ & _ & Hcreate & Hwrite & _) Hall. revert writer.
  induction Hall as [|f fs Hf _ IH]; intros writer; [by eexists|].
  cbn. specialize (Hcreate writer (Field f) (Name f)).
  destruct (CreateFormFile _ _ _) as [part [?|]]; [discriminate|].
  unfold io_Copy. specialize (Hwrite part (content (R f))).
  destruct (part_Write _ _) as [w [?|]]; [discriminate|].
  rewrite Hf. apply IH.
Qed.

Lemma write_files_inv writer fs w :
  write_files writer fs = (w, None) → Forall reads_to_end fs.
Proof.
  revert writer. induction fs as [|f fs IH]; intros writer Hw; [done|].
  cbn in Hw. destruct (CreateFormFile _ _ _) as [part [?|]]; [discriminate|].
  unfold io_Copy in Hw.
  destruct (part_Write _ _) as [w' [?|]]; [discriminate|].
  destruct (failure (R f)) eqn:Hf; [discriminate|].
  constructor; [done|by eapply IH].
Qed.

Lemma reliable_copy writer f e :
  reliable_writer →
  failure (R f) = Some e →
  ∃ part w,
    CreateFormFile writer (Field f) (Name f) = (part, None)
    ∧ io_Copy part (R f) = (w, Some e).
Proof.
  intros (_ & _ & Hcreate & Hwrite & _) Hf.
  specialize (Hcreate writer (Field f) (Name f)).
  destruct (CreateFormFile _ _ _) as [part [?|]]; [discriminate|].
  exists part. unfold io_Copy. specialize (Hwrite part (content (R f))).
  destruct (part_Write _ _) as [w [?|]]; [discriminate|].
  rewrite Hf. by exists w.
Qed.

Lemma reliable_variables_step writer req :
  reliable_writer →
  vars_encodable (vars req) →
  ∃ w, (if bool_decide (0 < len_vars (vars req))%nat
        then write_variables writer req else (writer, None)) = (w, None).
Proof.
  intros Hrel Henc. case_bool_decide; [|by eexists].
  by apply reliable_write_variables.
Qed.

(** X16. With a multipart writer that does not fail and variables that
    encode: when the reader of a file fails and the readers of the files
    before it read to their end, the call returns the error of that reader
    wrapped as [ErrCopy], whatever the files after it are, and the transport
    is not called. *)
Theorem first_broken_reader r ctx req log pre f post e :
  reliable_writer →
  useMultipartForm (client r) = true →
  vars_encodable (vars req) →
  files req = pre ++ f :: post →
  Forall reads_to_end pre →
  failure (R f) = Some e →
  Requester_Request r ctx req log
  = ((zero_Response, NewError (Some e) ErrCopy), log).
Proof.
  intros Hrel Hflag Henc Hfiles Hpre Hf. rewrite Request_multipart by done.
  pose proof Hrel as (Hfield & _).
  specialize (Hfield NewWriter "query" (Query_String (q req))).
  destruct (WriteField NewWriter "query" (Query_String (q req)))
    as [w1 [?|]] eqn:Hw1; [discriminate|].
  destruct (reliable_variables_step w1 req Hrel Henc) as [w2 Hw2].
  destruct (reliable_write_files w2 pre Hrel Hpre) as [w3 Hw3].
  destruct (reliable_copy w3 f e Hrel Hf) as (part & w5 & Hcreate & Hcopy).
  eapply requestMultipart_in_files; [done..|].
  rewrite Hfiles, write_files_app, Hw3. cbn. by rewrite Hcreate, Hcopy.
Qed.

Lemma Request_calls r ctx req log :
  ((0 < length (files req))%nat → useMultipartForm (client r) = true) →
  calls (Requester_Request r ctx req log).2
  = (calls log + match outbound r ctx req with inl _ => 1 | inr _ => 0 end)%nat.
Proof.
  intros Hpre. pose proof (Request_by_outbound r ctx req log Hpre) as Hrun.
  destruct (outbound r ctx req) as [hr|e].
  - destruct (httpClient (client r) hr log) as [httpRes|e]; rewrite Hrun;
      cbn [snd]; by rewrite calls_app.
  - rewrite Hrun. cbn [snd]. lia.
Qed.

Lemma json_outbound_inl r ctx req :
  (∃ hr, json_outbound r ctx req = inl hr)
  ↔ vars_encodable (vars req) ∧ url_Parse (endpoint (client r)) = None.
Proof.
  rewrite encode_vars_inl.
  unfold json_outbound, Encode_requestQuery, NewRequestWithContext. cbn.
  destruct (encode_vars (vars req)) as [b|e].
  - destruct (url_Parse _).
    + split; [by intros [hr [=]]|by intros [_ [=]]].
    + split; [intros _; split; [by eexists|done]|intros _; by eexists].
  - split; [by intros [hr [=]]|by intros [[b [=]] _]].
Qed.

(** X17. In the JSON strategy the transport is called, once, exactly when
    the request has no files, its variables encode and the endpoint
    parses. *)
Theorem JSON_calls_transport_iff r ctx req log :
  useMultipartForm (client r) = false →
  calls (Requester_Request r ctx req log).2 = S (calls log)
  ↔ files req = []
    ∧ vars_encodable (vars req)
    ∧ url_Parse (endpoint (client r)) = None.
Proof.
  intros Hflag. destruct (files req) as [|f fs] eqn:Hfiles.
  - rewrite Request_calls by (rewrite Hfiles; cbn; lia).
    unfold outbound. rewrite Hflag, <- (json_outbound_inl r ctx req).
    destruct (json_outbound r ctx req) as [hr|e].
    + split; [intros _; split; [done|by eexists]|intros _; lia].
    + split; [lia|by intros [_ [hr [=]]]].
  - unfold Requester_Request.
    rewrite Hflag, Hfiles, bool_decide_eq_true_2 by (cbn; lia).
    cbn. unfold calls. split; [lia|]. by intros [[=] _].
Qed.

Lemma multipart_form_inl req :
  reliable_writer →
  (∃ writer, multipart_form req = inl writer)
  ↔ vars_encodable (vars req) ∧ Forall reads_to_end (files req).
Proof.
  intros Hrel. unfold multipart_form.
  pose proof Hrel as (Hfield & _ & _ & _ & Hclose).
  specialize (Hfield NewWriter "query" (Query_String (q req))).
  destruct (WriteField NewWriter "query" (Query_String (q req)))
    as [w1 [?|]]; [discriminate|].
  destruct (decide (vars_encodable (vars req))) as [Henc|Henc].
  - destruct (reliable_variables_step w1 req Hrel Henc) as [w2 ->].
    destruct (decide (Forall reads_to_end (files req))) as [Hall|Hall].
    + destruct (reliable_write_files w2 (files req) Hrel Hall) as [w3 ->].
      specialize (Hclose w3).
      destruct (Writer_Close w3) as [w4 [?|]]; [discriminate|].
      split; [done|intros _; by eexists].
    + destruct (write_files w2 (files req)) as [w3 [e|]] eqn:Hfiles.
      * split; [by intros [w [=]]|by intros [_ ?]].
      * destruct Hall. eapply write_files_inv; eauto.
  - split; [|by intros [? _]].
    assert (Hlen : (0 < len_vars (vars req))%nat).
    { apply Nat.neq_0_lt_0. intros Hlen. destruct Henc. unfold vars_encodable.
      destruct (vars req) as [m|]; cbn in *; [|apply map_Forall_empty].
      apply map_size_empty_inv in Hlen as ->. apply map_Forall_empty. }
    rewrite bool_decide_eq_true_2 by done.
    destruct (unreliable_write_variables w1 req Hrel Henc) as (w2 & e & ->).
    by intros [w [=]].
Qed.

(** X18. In the multipart strategy with a writer that does not fail, the
    transport is called, once, exactly when the variables encode, every
    reader of a file reads to its end and the endpoint parses. *)
Theorem multipart_calls_transport_iff r ctx req log :
  reliable_writer →
  useMultipartForm (client r) = true →
  calls (Requester_Request r ctx req log).2 = S (calls log)
  ↔ vars_encodable (vars req)
    ∧ Forall reads_to_end (files req)
    ∧ url_Parse (endpoint (client r)) = None.
Proof.
  intros Hrel Hflag. rewrite Request_calls by done.
  unfold outbound, multipart_outbound, NewRequestWithContext. rewrite Hflag.
  pose proof (multipart_form_inl req Hrel) as Hform.
  destruct (multipart_form req) as [writer|e].
  - destruct Hform as [[Henc Hall] _]; [by eexists|].
    destruct (url_Parse _); [|split; [done|lia]].
    split; [lia|by intros (_ & _ & [=])].
  - split; [lia|]. intros (Henc & Hall & _).
    destruct Hform as [_ [w [=]]]. done.
Qed.

(** X19. In the JSON strategy, when the variables do not encode, the call
    returns the zero response and the error of the encoder as it is, not
    wrapped, and the transport is not called. *)
Theorem JSON_encoder_error_as_is r ctx req log e :
  useMultipartForm (client r) = false →
  files req = [] →
  encode_vars (vars req) = inr e →
  Requester_Request r ctx req log = ((zero_Response, Some e), log).
Proof.
  intros Hflag Hfiles Henc. rewrite Request_json by done.
  apply requestJSON_unsent. unfold json_outbound, Encode_requestQuery. cbn.
  by rewrite Henc.
Qed.

(** X20. When the endpoint of the client does not parse as a URL, a call
    whose body could be written returns the zero response and the error of
    the parser as it is, in either strategy, and the transport is not
    called. *)
Theorem endpoint_does_not_parse r ctx req log e :
  ((0 < length (files req))%nat → useMultipartForm (client r) = true) →
  url_Parse (endpoint (client r)) = Some e →
  (if useMultipartForm (client r)
   then ∃ writer, multipart_form req = inl writer
   else ∃ b, encode_vars (vars req) = inl b) →
  Requester_Request r ctx req log = ((zero_Response, Some e), log).
Proof.
  intros Hpre Hurl Hbody.
  pose proof (Request_by_outbound r ctx req log Hpre) as Hrun.
  unfold outbound, multipart_outbound, json_outbound, Encode_requestQuery,
    NewRequestWithContext in Hrun.
  destruct (useMultipartForm (client r)).
  - destruct Hbody as [writer Hform]. by rewrite Hform, Hurl in Hrun.
  - destruct Hbody as [b Hb]. cbn in Hrun. by rewrite Hb, Hurl in Hrun.
Qed.

(** X5. Once [Var] has been called on a request, the JSON strategy never
    sends ["variables":null] for it: when the request has no files, its
    variables encode and the endpoint parses, a call of [Request] hands the
    transport one request, whose body has the variables as an object in
    braces, after the query the request had before the call of [Var]. *)
Theorem set_variables_encode_object r ctx req key v log :
  useMultipartForm (client r) = false →
  files req = [] →
  url_Parse (endpoint (client r)) = None →
  vars_encodable (vars (Var req key v)) →
  ∃ hr rest inner,
    (Requester_Request r ctx (Var req key v) log).2 = log ++ EvDo hr :: rest
    ∧ calls rest = 0%nat
    ∧ hBody hr
      = dq "{'query':" +:+ encodeString (q req) +:+ dq ",'variables':"
        +:+ ("{" +:+ inner +:+ "}") +:+ "}" +:+ newline
    ∧ hBody hr
      ≠ dq "{'query':" +:+ encodeString (q req) +:+ dq ",'variables':null}" +:+ newline.
Proof.
  intros Hflag Hfiles Hurl [b Hb]%encode_vars_inl.
  assert (Hobject : ∃ inner, b = "{" +:+ inner +:+ "}").
  { unfold encode_vars, Var in Hb. cbn in Hb.
    destruct (encode_entries _ _) as [inner|]; [|discriminate].
    injection Hb as <-. by eexists. }
  destruct Hobject as [inner ->].
  destruct (JSON_request_sent r ctx (Var req key v) log
              (dq "{'query':" +:+ encodeString (q req) +:+ dq ",'variables':"
               +:+ ("{" +:+ inner +:+ "}") +:+ "}" +:+ newline))
    as (hr & rest & Hlog & Hrest & Hbody); [done|done| |done|].
  { unfold Encode_requestQuery. cbn [rqVariables rqQuery]. by rewrite Hb. }
  exists hr, rest, inner. split_and!; [done..|].
  rewrite Hbody. intros Heq.
  repeat apply (inj (String.app _)) in Heq. cbv in Heq. discriminate Heq.
Qed.

(** X11. A call that reaches the transport (no files without the flag,
    variables that encode, an endpoint that parses and, in the multipart
    strategy, a writer that does not fail and readers that read to their
    end) hands it one request: a POST to the endpoint of the client, with
    the context of the call, with [Close] as the close flag of the client,
    and with the body the JSON encoder wrote or the one the multipart writer
    holds after [Close]. *)
Theorem request_on_the_wire r ctx req log :
  ((0 < length (files req))%nat → useMultipartForm (client r) = true) →
  vars_encodable (vars req) →
  url_Parse (endpoint (client r)) = None →
  (useMultipartForm (client r) = true →
   reliable_writer ∧ Forall reads_to_end (files req)) →
  ∃ hr rest,
    (Requester_Request r ctx req log).2 = log ++ EvDo hr :: rest
    ∧ calls rest = 0%nat
    ∧ hMethod hr = "POST"
    ∧ hURL hr = endpoint (client r)
    ∧ hCtx hr = ctx
    ∧ hClose hr = closeReq (client r)
    ∧ (if useMultipartForm (client r)
       then ∃ writer, multipart_form req = inl writer ∧ hBody hr = Bytes writer
       else Encode_requestQuery (mkRequestQuery (q req) (vars req)) = inl (hBody hr)).
Proof.
  intros Hpre Henc Hurl Hmultipart.
  assert (Hout : ∃ hr, outbound r ctx req = inl hr).
  { unfold outbound. destruct (useMultipartForm (client r)) eqn:Hflag.
    - destruct Hmultipart as [Hrel Hall]; [done|].
      destruct (proj2 (multipart_form_inl req Hrel)) as [writer Hform]; [done|].
      unfold multipart_outbound, NewRequestWithContext. rewrite Hform, Hurl.
      by eexists.
    - by apply json_outbound_inl. }
  destruct Hout as [hr Hout]. exists hr.
  pose proof (Request_by_outbound r ctx req log Hpre) as Hrun.
  rewrite Hout in Hrun.
  destruct (outbound_fields r ctx req hr Hout)
    as (Hmethod & Hurl' & _ & Hctx & Hclose & Hbody).
  destruct (httpClient (client r) hr log) as [httpRes|e].
  - exists [EvClose httpRes]. by rewrite Hrun.
  - exists []. by rewrite Hrun.
Qed.

(** X21. A client made by [NewClient] from options of the package among
    which [UseMultipartForm] is missing refuses every request on which
    [File] was called, whatever else was called on it: the call returns
    [ErrInvalidInput] and the transport is not called. *)
Theorem files_need_UseMultipartForm DefaultClient url os req0 ops ctx log :
  existsb is_OUseMultipartForm os = false →
  omap file_of ops ≠ [] →
  Requester_Request
    (NewRequester (T:=T) (E:=E) (NewClient DefaultClient url (option_of <$> os)))
    ctx (foldl apply_op req0 ops) log
  = ((zero_Response, Some ErrInvalidInput), log).
Proof.
  intros Hopts Hfiles. unfold Requester_Request, NewRequester, NewClient. cbn.
  destruct (options_fold (mkClientFields None url false false) os)
    as (_ & -> & _). cbn. rewrite Hopts, apply_ops_files.
  rewrite bool_decide_eq_true_2; [done|].
  rewrite length_app. destruct (omap file_of ops); [done|]. cbn. lia.
Qed.

End MoreProperties.

(** ** The rest of the dispatcher on the examples *)

Lemma Request_transport_failure_witness :
  ∃ hr,
    outbound (test_requester refusing false) test_ctx (NewRequest "query {}") = inl hr
    ∧ Requester_Request (test_requester refusing false) test_ctx (NewRequest "query {}") []
      = ((zero_Response,
          Some (errorString "dial tcp 127.0.0.1:80: connect: connection refused")),
         [EvDo hr]).
Proof.
  eexists. split; [reflexivity|].
  eapply (Request_transport_failure (test_requester refusing false) test_ctx
            (NewRequest "query {}") []);
    [intros Hfiles; cbn in Hfiles; lia|reflexivity..].
Defined.

Lemma set_variables_encode_object_witness :
  ∃ hr rest inner,
    (Requester_Request (test_requester refusing false) test_ctx
       (Var (NewRequest "query {}") "username" (VString "testUser")) []).2
    = [] ++ EvDo hr :: rest
    ∧ calls rest = 0%nat
    ∧ hBody hr
      = dq "{'query':" +:+ encodeString "query {}" +:+ dq ",'variables':"
        +:+ ("{" +:+ inner +:+ "}") +:+ "}" +:+ newline
    ∧ hBody hr
      ≠ dq "{'query':" +:+ encodeString "query {}" +:+ dq ",'variables':null}" +:+ newline.
Proof.
  apply (set_variables_encode_object (test_requester refusing false) test_ctx
           (NewRequest "query {}") "username" (VString "testUser") []);
    [reflexivity..|].
  apply map_Forall_singleton. reflexivity.
Defined.

Lemma request_on_the_wire_witness :
  ∃ hr rest,
    (Requester_Request
       (NewRequester (T:=testData) (E:=testErrorExtension)
          (NewClient refusing test_endpoint [ImmediatelyCloseReqBody; UseMultipartForm]))
       test_ctx upload_request []).2
    = [] ++ EvDo hr :: rest
    ∧ calls rest = 0%nat
    ∧ hMethod hr = "POST"
    ∧ hURL hr = test_endpoint
    ∧ hCtx hr = test_ctx
    ∧ hClose hr = true
    ∧ ∃ writer, multipart_form upload_request = inl writer ∧ hBody hr = Bytes writer.
Proof.
  apply (request_on_the_wire
           (NewRequester (T:=testData) (E:=testErrorExtension)
              (NewClient refusing test_endpoint [ImmediatelyCloseReqBody; UseMultipartForm]))
           test_ctx upload_request []).
  - intros _. reflexivity.
  - apply map_Forall_empty.
  - reflexivity.
  - intros _. split; [repeat split; reflexivity|repeat constructor].
Defined.

Lemma outbound_header_keys_witness :
  ∃ hr,
    outbound (test_requester refusing false) test_ctx sparse_header_request = inl hr
    ∧ canonical_keys (hHeader hr).
Proof.
  eexists. split; [reflexivity|].
  eapply (outbound_header_keys (test_requester refusing false) test_ctx
            sparse_header_request).
  reflexivity.
Defined.

(** A key of the request without a value is not in the header sent; a key
    in lower case is sent in its canonical form. *)
Example sparse_header_example :
  ∃ hr,
    outbound (test_requester refusing false) test_ctx sparse_header_request = inl hr
    ∧ hHeader hr !! "X-Empty" = None
    ∧ hHeader hr !! "x-one" = None
    ∧ hHeader hr !! "X-One" = Some ["1"].
Proof.
  eexists. split; [reflexivity|]. split_and!; vm_compute; reflexivity.
Qed.


Lemma multipart_variables_failures_witness :
  Requester_Request (test_requester refusing true) test_ctx channel_request []
  = ((zero_Response,
      Some (withMessage (errorString "json: unsupported type: chan int")
                        "encode variables")),
     []).
Proof.
  edestruct (multipart_variables_failures (test_requester refusing true) test_ctx
               channel_request [])
    as (_ & Hencode & _); [reflexivity|vm_compute; lia|reflexivity|].
  eapply Hencode; reflexivity.
Defined.

(** The same failures with a writer that runs out of room: in making the
    field for the variables, and in writing them. *)
Example variables_field_out_of_room :
  (@Requester_Request testData testErrorExtension _ (limited_Multipart 100) _
     (test_requester refusing true) test_ctx username_request []).1.2
  = Some (withMessage (errorString "write: no space left on device")
                      "create variables field")
  ∧ (@Requester_Request testData testErrorExtension _ (limited_Multipart 190) _
       (test_requester refusing true) test_ctx username_request []).1.2
    = Some (withMessage (errorString "write: no space left on device")
                        "encode variables").
Proof. split; vm_compute; reflexivity. Qed.

Lemma multipart_file_failures_witness :
  @Requester_Request testData testErrorExtension _ (limited_Multipart 100) _
    (test_requester refusing true) test_ctx upload_request []
  = ((zero_Response,
      Some (withMessage (errorString "write: no space left on device")
                        "create form file")),
     []).
Proof.
  epose proof (@multipart_file_failures testData testErrorExtension _
                 (limited_Multipart 100) _
                 (test_requester refusing true) test_ctx upload_request []
                 _ _ _ [] (mkFile "file" "a.txt" (mkReader "hello" None)) []
                 eq_refl eq_refl eq_refl eq_refl eq_refl)
    as (Hcreate & _).
  eapply Hcreate. reflexivity.
Defined.

Example file_copy_out_of_room :
  (@Requester_Request testData testErrorExtension _ (limited_Multipart 237) _
     (test_requester refusing true) test_ctx upload_request []).1.2
  = Some (withMessage (errorString "write: no space left on device") "copy").
Proof. vm_compute. reflexivity. Qed.

Lemma first_broken_reader_witness :
  Requester_Request (test_requester refusing true) test_ctx broken_upload_request []
  = ((zero_Response, Some (withMessage (errorString "unexpected EOF") "copy")), []).
Proof.
  eapply (first_broken_reader (test_requester refusing true) test_ctx
            broken_upload_request []
            [mkFile "file" "a.txt" (mkReader "hello" None)]
            (mkFile "second" "b.txt" (mkReader "hel" (Some (errorString "unexpected EOF"))))
            [mkFile "third" "c.txt" (mkReader "never read" None)]).
  - repeat split; reflexivity.
  - reflexivity.
  - apply map_Forall_empty.
  - reflexivity.
  - repeat constructor.
  - reflexivity.
Defined.

Lemma JSON_calls_transport_iff_witness :
  calls (Requester_Request (test_requester refusing false) test_ctx
                           (NewRequest "query {}") []).2 = 1%nat.
Proof.
  apply (JSON_calls_transport_iff (test_requester refusing false) test_ctx
           (NewRequest "query {}") []); [reflexivity|].
  split_and!; [reflexivity|apply map_Forall_empty|reflexivity].
Defined.

Lemma multipart_calls_transport_iff_witness :
  calls (Requester_Request (test_requester refusing true) test_ctx upload_request []).2
  = 1%nat.
Proof.
  apply (multipart_calls_transport_iff (test_requester refusing true) test_ctx
           upload_request []).
  - repeat split; reflexivity.
  - reflexivity.
  - split_and!; [apply map_Forall_empty|repeat constructor|reflexivity].
Defined.

Lemma JSON_encoder_error_as_is_witness :
  Requester_Request (test_requester refusing false) test_ctx channel_request []
  = ((zero_Response, Some (errorString "json: unsupported type: chan int")), []).
Proof.
  apply (JSON_encoder_error_as_is (test_requester refusing false) test_ctx
           channel_request []); reflexivity.
Defined.

Lemma endpoint_does_not_parse_witness :
  Requester_Request
    (NewRequester (T:=testData) (E:=testErrorExtension)
       (mkClient refusing test_bad_endpoint false false))
    test_ctx (NewRequest "query {}") []
  = ((zero_Response,
      Some (errorString
              (dq "parse 'http://127.0.0.1/\ngraphql': net/url: invalid control character in URL"))),
     []).
Proof.
  apply (endpoint_does_not_parse
           (NewRequester (T:=testData) (E:=testErrorExtension)
              (mkClient refusing test_bad_endpoint false false))
           test_ctx (NewRequest "query {}") []).
  - intros Hfiles. cbn in Hfiles. lia.
  - reflexivity.
  - by eexists.
Defined.

Lemma files_need_UseMultipartForm_witness :
  Requester_Request
    (NewRequester (T:=testData) (E:=testErrorExtension)
       (NewClient refusing test_endpoint
          (option_of <$> [OImmediatelyCloseReqBody; OWithHTTPClient refusing])))
    test_ctx
    (foldl apply_op (NewRequest "query {}")
       [OpVar "username" (VString "testUser");
        OpFile "file" "a.txt" (mkReader "hello" None)])
    []
  = ((zero_Response, Some ErrInvalidInput), []).
Proof.
  apply (files_need_UseMultipartForm (T:=testData) (E:=testErrorExtension)
           refusing test_endpoint
           [OImmediatelyCloseReqBody; OWithHTTPClient refusing]
           (NewRequest "query {}")
           [OpVar "username" (VString "testUser");
            OpFile "file" "a.txt" (mkReader "hello" None)]
           test_ctx []).
  - reflexivity.
  - discriminate.
Defined.
